(** * kivy/loader.py: the asynchronous image loader

    A shallow embedding of [LoaderBase] and [LoaderThreadPool] of
    [kivy/loader.py].  Methods are functions on an explicit [Loader] state
    that also carries the collaborators the methods touch: the ['kv.loader']
    cache category, the store of [ProxyImage] objects handed out to callers,
    the Clock trigger and the part of the operating system the network
    loader uses (descriptor table, files, connections).

    Python exceptions are an explicit [outcome]; the state at the time an
    exception is raised is kept, as in Python. *)

From Stdlib Require Import ZArith Ascii String List Bool Lia.
From stdpp Require Import base option list gmap strings.

Import ListNotations.
Local Open Scope string_scope.

(** ** Python values that flow through the loader *)

(** The exception classes the code raises or meets. *)
Inductive exn : Set :=
  | Exception
  | TypeError
  | AttributeError
  | IndexError
  | OSError
  | URLError
  | ImportError
  | IOError.

(** A call either returns a value or raises. *)
Inductive outcome (A : Type) : Type :=
  | Ret (a : A)
  | Raise (e : exn).
Arguments Ret {A} a.
Arguments Raise {A} e.

(** [kivy.core.image.Image], as far as the loader looks at it: the
    [nocache] attribute and the [source] of its image data. *)
Record Image : Set := mkImage {
  img_source : string;
  nocache : bool
}.

(** What a loading function hands back: an image, or [None]. *)
Inductive PyData : Set :=
  | DNone
  | DImage (i : Image).

(** A file name as callers pass it: a [str], or [None]. *)
Abbreviation filename_t := (option string).

(** The [**kwargs] of [image]; only boolean options are looked at. *)
Abbreviation kwargs_t := (gmap string bool).

(** [kwargs.get('nocache', False)] *)
Definition kwargs_get_nocache (kwargs : kwargs_t) : bool :=
  default false (kwargs !! "nocache").

(** The dict pushed on [_q_load] by [image]. *)
Record LoadRequest : Type := mkRequest {
  rq_filename : filename_t;
  rq_load_callback : option (filename_t -> outcome PyData);
  rq_post_callback : option (PyData -> outcome PyData);
  rq_kwargs : kwargs_t
}.

(** [ProxyImage]: the displayed image, the [loaded] flag and how many times
    ['on_load'] was dispatched on it. *)
Record ProxyImage : Set := mkProxy {
  pi_image : PyData;
  pi_loaded : bool;
  pi_on_load : nat
}.

(** A value of the ['kv.loader'] cache: [False] (queued for loading) or an
    image.  An absent key reads as [None]. *)
Inductive CacheVal : Set :=
  | CFalse
  | CImage (i : Image).

(** ** The operating system, as [_load_urllib] sees it *)

Record World : Type := mkWorld {
  fdtab : gmap Z string;        (* open descriptors and the file each is on *)
  files : gmap string string;   (* existing files and their contents *)
  conns : nat                   (* network responses opened and not closed *)
}.

(** [os.close]: [None] is not an integer; a descriptor that is not open is
    refused with EBADF. *)
Definition os_close (fd : option Z) (w : World) : outcome unit * World :=
  match fd with
  | None => (Raise TypeError, w)
  | Some k =>
      match fdtab w !! k with
      | Some _ => (Ret tt, mkWorld (delete k (fdtab w)) (files w) (conns w))
      | None => (Raise OSError, w)
      end
  end.

(** [os.write] on an open descriptor appends to its file. *)
Definition os_write (k : Z) (bytes : string) (w : World) : outcome unit * World :=
  match fdtab w !! k with
  | Some name =>
      let old := default "" (files w !! name) in
      (Ret tt, mkWorld (fdtab w) (<[name := old ++ bytes]> (files w)) (conns w))
  | None => (Raise OSError, w)
  end.

(** [os.unlink] *)
Definition os_unlink (name : string) (w : World) : outcome unit * World :=
  match files w !! name with
  | Some _ => (Ret tt, mkWorld (fdtab w) (delete name (files w)) (conns w))
  | None => (Raise OSError, w)
  end.

(** ** The loader object *)

Record Loader : Type := mkLoader {
  _loading_image : option Image;
  _error_image : option Image;
  _num_workers : Z;
  _max_upload_per_frame : option Z;
  _paused : bool;
  _q_load : list LoadRequest;                 (* deque: head is the left end *)
  _q_done : list (filename_t * PyData);       (* deque: head is the left end *)
  _client : list (filename_t * nat);          (* (filename, ProxyImage) *)
  _running : bool;
  _start_wanted : bool;
  pool : option Z;                            (* LoaderThreadPool.pool *)
  (* collaborators *)
  trigger_calls : nat;                        (* calls of _trigger_update *)
  run_scheduled : bool;                       (* Clock.schedule_interval(run) *)
  cache : gmap filename_t CacheVal;           (* Cache category 'kv.loader' *)
  heap : list ProxyImage;                     (* the ProxyImage objects *)
  os : World
}.

(** Field updates. *)
Definition set_loading_image v s : Loader :=
    mkLoader v (_error_image s) (_num_workers s) (_max_upload_per_frame s)
      (_paused s) (_q_load s) (_q_done s) (_client s) (_running s)
      (_start_wanted s) (pool s) (trigger_calls s) (run_scheduled s) (cache s)
      (heap s) (os s).
Definition set_error_image v s : Loader :=
    mkLoader (_loading_image s) v (_num_workers s) (_max_upload_per_frame s)
      (_paused s) (_q_load s) (_q_done s) (_client s) (_running s)
      (_start_wanted s) (pool s) (trigger_calls s) (run_scheduled s) (cache s)
      (heap s) (os s).
Definition set_num_workers v s : Loader :=
    mkLoader (_loading_image s) (_error_image s) v (_max_upload_per_frame s)
      (_paused s) (_q_load s) (_q_done s) (_client s) (_running s)
      (_start_wanted s) (pool s) (trigger_calls s) (run_scheduled s) (cache s)
      (heap s) (os s).
Definition set_max_upload v s : Loader :=
    mkLoader (_loading_image s) (_error_image s) (_num_workers s) v (_paused s)
      (_q_load s) (_q_done s) (_client s) (_running s) (_start_wanted s)
      (pool s) (trigger_calls s) (run_scheduled s) (cache s) (heap s) (os s).
Definition set_paused v s : Loader :=
    mkLoader (_loading_image s) (_error_image s) (_num_workers s)
      (_max_upload_per_frame s) v (_q_load s) (_q_done s) (_client s)
      (_running s) (_start_wanted s) (pool s) (trigger_calls s)
      (run_scheduled s) (cache s) (heap s) (os s).
Definition set_q_load v s : Loader :=
    mkLoader (_loading_image s) (_error_image s) (_num_workers s)
      (_max_upload_per_frame s) (_paused s) v (_q_done s) (_client s)
      (_running s) (_start_wanted s) (pool s) (trigger_calls s)
      (run_scheduled s) (cache s) (heap s) (os s).
Definition set_q_done v s : Loader :=
    mkLoader (_loading_image s) (_error_image s) (_num_workers s)
      (_max_upload_per_frame s) (_paused s) (_q_load s) v (_client s)
      (_running s) (_start_wanted s) (pool s) (trigger_calls s)
      (run_scheduled s) (cache s) (heap s) (os s).
Definition set_client v s : Loader :=
    mkLoader (_loading_image s) (_error_image s) (_num_workers s)
      (_max_upload_per_frame s) (_paused s) (_q_load s) (_q_done s) v
      (_running s) (_start_wanted s) (pool s) (trigger_calls s)
      (run_scheduled s) (cache s) (heap s) (os s).
Definition set_running v s : Loader :=
    mkLoader (_loading_image s) (_error_image s) (_num_workers s)
      (_max_upload_per_frame s) (_paused s) (_q_load s) (_q_done s) (_client s)
      v (_start_wanted s) (pool s) (trigger_calls s) (run_scheduled s)
      (cache s) (heap s) (os s).
Definition set_start_wanted v s : Loader :=
    mkLoader (_loading_image s) (_error_image s) (_num_workers s)
      (_max_upload_per_frame s) (_paused s) (_q_load s) (_q_done s) (_client s)
      (_running s) v (pool s) (trigger_calls s) (run_scheduled s) (cache s)
      (heap s) (os s).
Definition set_pool v s : Loader :=
    mkLoader (_loading_image s) (_error_image s) (_num_workers s)
      (_max_upload_per_frame s) (_paused s) (_q_load s) (_q_done s) (_client s)
      (_running s) (_start_wanted s) v (trigger_calls s) (run_scheduled s)
      (cache s) (heap s) (os s).
Definition set_trigger_calls v s : Loader :=
    mkLoader (_loading_image s) (_error_image s) (_num_workers s)
      (_max_upload_per_frame s) (_paused s) (_q_load s) (_q_done s) (_client s)
      (_running s) (_start_wanted s) (pool s) v (run_scheduled s) (cache s)
      (heap s) (os s).
Definition set_run_scheduled v s : Loader :=
    mkLoader (_loading_image s) (_error_image s) (_num_workers s)
      (_max_upload_per_frame s) (_paused s) (_q_load s) (_q_done s) (_client s)
      (_running s) (_start_wanted s) (pool s) (trigger_calls s) v (cache s)
      (heap s) (os s).
Definition set_cache v s : Loader :=
    mkLoader (_loading_image s) (_error_image s) (_num_workers s)
      (_max_upload_per_frame s) (_paused s) (_q_load s) (_q_done s) (_client s)
      (_running s) (_start_wanted s) (pool s) (trigger_calls s)
      (run_scheduled s) v (heap s) (os s).
Definition set_heap v s : Loader :=
    mkLoader (_loading_image s) (_error_image s) (_num_workers s)
      (_max_upload_per_frame s) (_paused s) (_q_load s) (_q_done s) (_client s)
      (_running s) (_start_wanted s) (pool s) (trigger_calls s)
      (run_scheduled s) (cache s) v (os s).
Definition set_os v s : Loader :=
    mkLoader (_loading_image s) (_error_image s) (_num_workers s)
      (_max_upload_per_frame s) (_paused s) (_q_load s) (_q_done s) (_client s)
      (_running s) (_start_wanted s) (pool s) (trigger_calls s)
      (run_scheduled s) (cache s) (heap s) v.

(** [LoaderBase.__init__] (and [LoaderThreadPool.__init__]), over a given
    cache, object store and operating system. *)
Definition init (c : gmap filename_t CacheVal) (h : list ProxyImage) (w : World) : Loader :=
  mkLoader None None 2 (Some 2%Z) false [] [] [] false false None 0 false c h w.

(** ** Configuration *)

(** [_set_num_workers] *)
Definition _set_num_workers (num : Z) (s : Loader) : outcome unit * Loader :=
  if (num <? 2)%Z then (Raise Exception, s)
  else (Ret tt, set_num_workers num s).

Definition _get_num_workers (s : Loader) : Z := _num_workers s.

(** [_set_max_upload_per_frame]: [None] passes the check. *)
Definition _set_max_upload_per_frame (num : option Z) (s : Loader) : outcome unit * Loader :=
  match num with
  | Some n => if (n <? 1)%Z then (Raise Exception, s) else (Ret tt, set_max_upload num s)
  | None => (Ret tt, set_max_upload num s)
  end.

Definition _get_max_upload_per_frame (s : Loader) : option Z := _max_upload_per_frame s.

(** [Clock.create_trigger(self._update)], called. *)
Definition _trigger_update (s : Loader) : Loader :=
  set_trigger_calls (S (trigger_calls s)) s.

(** [LoaderThreadPool.start]: [LoaderBase.start], a pool of [_num_workers]
    threads, [run] scheduled on every frame. *)
Definition start (s : Loader) : Loader :=
  set_run_scheduled true (set_pool (Some (_num_workers s)) (set_running true s)).


Definition pause (s : Loader) : Loader := set_paused true s.
Definition resume (s : Loader) : Loader := set_paused false s.

(** ** Strings *)

(** [s.split(':', 1)[0]] and the like: the text before the first [c]. *)
Fixpoint before_first (c : ascii) (s : string) : string :=
  match s with
  | EmptyString => EmptyString
  | String a s' => if Ascii.eqb a c then EmptyString else String a (before_first c s')
  end.

(** [s.split('.')[-1]]: the text after the last [c] ([acc] is the segment
    read so far). *)
Fixpoint after_last_from (c : ascii) (acc s : string) : string :=
  match s with
  | EmptyString => acc
  | String a s' =>
      if Ascii.eqb a c then after_last_from c EmptyString s'
      else after_last_from c (acc ++ String a EmptyString) s'
  end.

Definition after_last (c : ascii) (s : string) : string := after_last_from c EmptyString s.

(** [proto in ('http', 'https', 'ftp', 'smb')] *)
Definition is_net_proto (proto : string) : bool :=
  String.eqb proto "http" || String.eqb proto "https"
  || String.eqb proto "ftp" || String.eqb proto "smb".

(** ** What lies outside the loader *)

(** What [urllib] does with a URL. *)
Inductive fetch : Set :=
  | OpenFails                   (* urlopen / open raises *)
  | ReadFails                   (* the response opens, read() raises *)
  | Body (idata : string).      (* the bytes read *)

(** The collaborators whose code is not the loader's. *)
Record Externals : Type := mkExternals {
  (* ImageLoader.load on the two packaged images *)
  builtin_loading_image : Image;
  builtin_error_image : Image;
  (* ImageLoader.load(filename, keep_data=True, **kwargs), reading the files *)
  ImageLoader_load : gmap string string -> string -> kwargs_t -> outcome PyData;
  (* from smb.SMBHandler import SMBHandler *)
  smb_importable : bool;
  (* tempfile.mkstemp: None when it raises, else the descriptor; the
     directory and the random part of the name *)
  mkstemp_fd : option Z;
  mkstemp_dir : string;
  mkstemp_rnd : string;
  (* urllib.request *)
  urlopen : string -> fetch
}.

Section Methods.

Variable ext : Externals.

(** [tempfile.mkstemp(prefix='kivyloader', suffix=suffix)]: creates the
    file, opens it and returns the descriptor and the path. *)
Definition tmp_name (suffix : string) : string :=
  mkstemp_dir ext ++ "/kivyloader" ++ mkstemp_rnd ext ++ suffix.

Definition mkstemp (suffix : string) (w : World) : outcome (Z * string) * World :=
  match mkstemp_fd ext with
  | None => (Raise OSError, w)
  | Some k =>
      let name := tmp_name suffix in
      (Ret (k, name), mkWorld (<[k := name]> (fdtab w)) (<[name := ""]> (files w)) (conns w))
  end.

(** The path of the temporary file [_load_urllib] makes for [filename]. *)
Definition temp_file (filename : string) : string :=
  tmp_name ("." ++ after_last "."%char filename).

(** [_get_loading_image] *)
Definition _get_loading_image (s : Loader) : Image * Loader :=
  match _loading_image s with
  | Some i => (i, s)
  | None =>
      let i := builtin_loading_image ext in
      (i, set_loading_image (Some i) s)
  end.

(** [_get_error_image] *)
Definition _get_error_image (s : Loader) : Image * Loader :=
  match _error_image s with
  | Some i => (i, s)
  | None =>
      let i := builtin_error_image ext in
      (i, set_error_image (Some i) s)
  end.

(** [_load_local] *)
Definition _load_local (filename : string) (kwargs : kwargs_t) (s : Loader) : outcome PyData :=
  ImageLoader_load ext (files (os s)) filename kwargs.

(** *** [_load_urllib] *)

(** The local variables the [except] and [finally] clauses read. *)
Record Locals : Set := mkLocals {
  l_data : PyData;
  l_fd : bool;                  (* fd is a response object (else None) *)
  l_out_osfd : option Z;
  l_out_filename : string
}.

(** The body of the [try]: the outcome with the locals and the state as
    they are when it ends or raises. *)
Definition urllib_try (filename : string) (kwargs : kwargs_t) (s : Loader)
  : outcome unit * Locals * Loader :=
  let suffix := "." ++ after_last "."%char filename in
  match mkstemp suffix (os s) with
  | (Raise e, w) => (Raise e, mkLocals DNone false None "", set_os w s)
  | (Ret (k, name), w) =>
      let s := set_os w s in
      match urlopen ext filename with
      | OpenFails => (Raise URLError, mkLocals DNone false (Some k) name, s)
      | ReadFails =>
          let w := os s in
          (Raise IOError, mkLocals DNone true (Some k) name,
           set_os (mkWorld (fdtab w) (files w) (S (conns w))) s)
      | Body idata =>
          (* fd.close(); fd = None *)
          match os_write k idata (os s) with
          | (Raise e, w) => (Raise e, mkLocals DNone false (Some k) name, set_os w s)
          | (Ret _, w) =>
              match os_close (Some k) w with
              | (Raise e, w) => (Raise e, mkLocals DNone false (Some k) name, set_os w s)
              | (Ret _, w) =>
                  let s := set_os w s in
                  match _load_local name kwargs s with
                  | Raise e => (Raise e, mkLocals DNone false None name, s)
                  | Ret DNone =>
                      (* data._data *)
                      (Raise AttributeError, mkLocals DNone false None name, s)
                  | Ret (DImage i) =>
                      (Ret tt, mkLocals (DImage (mkImage filename (nocache i))) false None name, s)
                  end
              end
          end
      end
  end.

(** The [finally] clause. *)
Definition urllib_finally (l : Locals) (s : Loader) : outcome unit * Loader :=
  let w := os s in
  let w := if l_fd l then mkWorld (fdtab w) (files w) (pred (conns w)) else w in
  let truthy := match l_out_osfd l with Some k => negb (k =? 0)%Z | None => false end in
  match (if truthy then os_close (l_out_osfd l) w else (Ret tt, w)) with
  | (Raise e, w) => (Raise e, set_os w s)
  | (Ret _, w) =>
      if String.eqb (l_out_filename l) "" then (Ret tt, set_os w s)
      else
        match os_unlink (l_out_filename l) w with
        | (Raise e, w) => (Raise e, set_os w s)
        | (Ret _, w) => (Ret tt, set_os w s)
        end
  end.

(** [finally] runs last: what it raises replaces the pending result. *)
Definition then_finally {A} (l : Locals) (pending : outcome A) (s : Loader) : outcome A * Loader :=
  match urllib_finally l s with
  | (Raise e, s) => (Raise e, s)
  | (Ret _, s) => (pending, s)
  end.

Definition _load_urllib (filename : string) (kwargs : kwargs_t) (s : Loader)
  : outcome PyData * Loader :=
  let proto := before_first ":"%char filename in
  if String.eqb proto "smb" && negb (smb_importable ext) then (Ret DNone, s)
  else
    match urllib_try filename kwargs s with
    | (Ret _, l, s) => then_finally l (Ret (l_data l)) s
    | (Raise _, l, s) =>
        (* except Exception: log, close(_out_osfd) guarded for OSError *)
        match os_close (l_out_osfd l) (os s) with
        | (Raise OSError, w) | (Ret _, w) =>
            let '(img, s) := _get_error_image (set_os w s) in
            then_finally l (Ret (DImage img)) s
        | (Raise e, w) => then_finally l (Raise e) (set_os w s)
        end
    end.

(** *** [_load] *)

(** Where a worker is when [_load] does not finish: in the [sleep(0.1)]
    loop, or in [_wait_for_resume]. *)
Inductive load_result : Type :=
  | Sleeping
  | WaitingResume
  | Done (o : outcome unit).

(** The condition of the first [while]:
    [len(self._q_done) >= self.max_upload_per_frame * self._num_workers]. *)
Definition backpressure (s : Loader) : outcome bool :=
  match _get_max_upload_per_frame s with
  | None => Raise TypeError
  | Some m => Ret (m * _num_workers s <=? Z.of_nat (length (_q_done s)))%Z
  end.

Definition _load (kwargs : LoadRequest) (s : Loader) : load_result * Loader :=
  match backpressure s with
  | Raise e => (Done (Raise e), s)
  | Ret true => (Sleeping, s)
  | Ret false =>
      if _running s && _paused s then (WaitingResume, s)
      else
        match rq_filename kwargs with
        | None =>
            (* filename.split raises; bare except: return *)
            (Done (Ret tt), s)
        | Some filename =>
            let proto := before_first ":"%char filename in
            let '(r, s) :=
              match rq_load_callback kwargs with
              | Some load_callback => (load_callback (Some filename), s)
              | None =>
                  if is_net_proto proto then _load_urllib filename (rq_kwargs kwargs) s
                  else (_load_local filename (rq_kwargs kwargs) s, s)
              end in
            match r with
            | Raise e => (Done (Raise e), s)
            | Ret data =>
                let r :=
                  match rq_post_callback kwargs with
                  | Some post_callback => post_callback data
                  | None => Ret data
                  end in
                match r with
                | Raise e => (Done (Raise e), s)
                | Ret data =>
                    (Done (Ret tt),
                     _trigger_update (set_q_done ((Some filename, data) :: _q_done s) s))
                end
            end
        end
  end.

(** *** [_update] *)

(** [deque.pop()]: the right end; [None] for IndexError. *)
Definition deque_pop {A} (q : list A) : option (list A * A) :=
  match rev q with
  | [] => None
  | x :: r => Some (rev r, x)
  end.

(** [list.remove(x)]: the first occurrence. *)
Fixpoint list_remove {A} `{EqDecision A} (x : A) (l : list A) : list A :=
  match l with
  | [] => []
  | y :: l' => if decide (x = y) then l' else y :: list_remove x l'
  end.

(** [client.image = image; client.loaded = True; client.dispatch('on_load')] *)
Definition deliver (image : Image) (p : ProxyImage) : ProxyImage :=
  mkProxy (DImage image) true (S (pi_on_load p)).

(** The loop over [self._client[:]]. *)
Fixpoint update_clients (filename : filename_t) (image : Image)
    (copy : list (filename_t * nat)) (s : Loader) : Loader :=
  match copy with
  | [] => s
  | (c_filename, client) :: copy' =>
      if decide (filename = c_filename) then
        let s := set_heap (alter (deliver image) client (heap s)) s in
        let s := set_client (list_remove (c_filename, client) (_client s)) s in
        update_clients filename image copy' s
      else update_clients filename image copy' s
  end.

(** How the [for x in range(...)] loop ends when nothing is raised. *)
Inductive loop_exit : Set :=
  | RangeDone                   (* the range ran out: falls through *)
  | QueueEmpty.                 (* IndexError: return *)

(** The body of the [for] loop after the pop, for an image: the cache write
    and the clients' update. *)
Definition publish (filename : filename_t) (image : Image) (s : Loader) : Loader :=
  let s :=
    if nocache image then s
    else set_cache (<[filename := CImage image]> (cache s)) s in
  update_clients filename image (_client s) s.

Fixpoint update_loop (k : nat) (s : Loader) : outcome loop_exit * Loader :=
  match k with
  | O => (Ret RangeDone, s)
  | S k' =>
      match deque_pop (_q_done s) with
      | None => (Ret QueueEmpty, s)
      | Some (rest, (filename, data)) =>
          let s := set_q_done rest s in
          match data with
          | DNone => (Raise AttributeError, s)     (* image.nocache *)
          | DImage image => update_loop k' (publish filename image s)
          end
      end
  end.

(** The first block of [_update]: "want to start it ?" *)
Definition update_prologue (s : Loader) : Loader :=
  if _start_wanted s then
    set_start_wanted false (if _running s then s else start s)
  else s.

Definition _update (s : Loader) : outcome unit * Loader :=
  let s := update_prologue s in
  if _paused s then (Ret tt, _trigger_update s)
  else
    match _get_max_upload_per_frame s with
    | None => (Raise TypeError, s)                (* range(None) *)
    | Some n =>
        match update_loop (Z.to_nat n) s with
        | (Ret RangeDone, s) => (Ret tt, _trigger_update s)
        | (Ret QueueEmpty, s) => (Ret tt, s)
        | (Raise e, s) => (Raise e, s)
        end
    end.

(** *** [image] *)

(** [ProxyImage(arg, loaded=...)]: a new object; its handle is its index. *)
Definition new_proxy (arg : Image) (loaded : bool) (s : Loader) : nat * Loader :=
  (length (heap s), set_heap (heap s ++ [mkProxy (DImage arg) loaded 0]) s).

Definition image (filename : filename_t)
    (load_callback : option (filename_t -> outcome PyData))
    (post_callback : option (PyData -> outcome PyData))
    (kwargs : kwargs_t) (s : Loader) : nat * Loader :=
  let data := cache s !! filename in
  match data with
  | Some (CImage found) =>
      let '(_, s) := _get_loading_image s in
      new_proxy found true s
  | _ =>
      let '(loading, s) := _get_loading_image s in
      let '(client, s) := new_proxy loading false s in
      let s := set_client (_client s ++ [(filename, client)]) s in
      match data with
      | None =>
          let s := set_q_load
                     (mkRequest filename load_callback post_callback kwargs :: _q_load s) s in
          let s :=
            if negb (kwargs_get_nocache kwargs)
            then set_cache (<[filename := CFalse]> (cache s)) s
            else s in
          (client, _trigger_update (set_start_wanted true s))
      | Some _ => (client, s)
      end
  end.

(** [LoaderThreadPool.run]: hands every queued request to the pool, oldest
    first; returns the requests handed over. *)
Definition run (s : Loader) : list LoadRequest * Loader :=
  if _running s then (rev (_q_load s), set_q_load [] s) else ([], s).

End Methods.

Local Open Scope list_scope.

(** ** Ticks of the Clock *)

(** [n] consecutive invocations of [_update]: their outcomes, in order, and
    the state they leave. *)
Fixpoint ticks (n : nat) (s : Loader) : list (outcome unit) * Loader :=
  match n with
  | O => ([], s)
  | S n' =>
      let '(o, s1) := _update s in
      let '(os, s2) := ticks n' s1 in
      (o :: os, s2)
  end.

(** ** Several calls of [image] *)



(** An entry of [_q_done] whose data is an image (not [None]). *)
Definition is_image (e : filename_t * PyData) : Prop := snd e <> DNone.

(** ** Sample collaborators and loaders *)

Definition loading_gif : Image := mkImage "image-loading.gif" false.
Definition missing_png : Image := mkImage "image-missing" false.

(** A decoder that accepts every file that exists. *)
Definition decode_existing (fs : gmap string string) (f : string) (kw : kwargs_t)
  : outcome PyData :=
  match fs !! f with
  | Some _ => Ret (DImage (mkImage f (kwargs_get_nocache kw)))
  | None => Raise IOError
  end.

(** A decoder that rejects everything. *)
Definition decode_nothing (fs : gmap string string) (f : string) (kw : kwargs_t)
  : outcome PyData := Raise Exception.

(** No route to any host; [mkstemp] hands out descriptor 3. *)
Definition ext_offline : Externals :=
  mkExternals loading_gif missing_png decode_existing true (Some 3%Z) "/tmp" "ab12"
    (fun _ => OpenFails).

(** Every URL answers with four bytes, and they decode. *)
Definition ext_online : Externals :=
  mkExternals loading_gif missing_png decode_existing true (Some 3%Z) "/tmp" "ab12"
    (fun _ => Body "PNG!").

(** Every URL answers, but what comes back does not decode. *)
Definition ext_garbage : Externals :=
  mkExternals loading_gif missing_png decode_nothing true (Some 3%Z) "/tmp" "ab12"
    (fun _ => Body "<html>").

Definition empty_world : World := mkWorld ∅ ∅ 0.

(** A loader as [__init__] leaves it. *)
Definition fresh_loader : Loader := init ∅ [] empty_world.

(** A paused loader whose quota was set to [None]. *)
Definition paused_unlimited : Loader :=
  pause (snd (_set_max_upload_per_frame None fresh_loader)).

(** Three finished loads waiting in [_q_done]. *)
Definition backlog : Loader :=
  set_q_done [(Some "c.png", DImage (mkImage "c.png" false));
              (Some "b.png", DImage (mkImage "b.png" false));
              (Some "a.png", DImage (mkImage "a.png" false))] fresh_loader.

(** A disk that holds [a.png]. *)
Definition disk : World := mkWorld ∅ {[ "a.png" := "PNG!" ]} 0.


(** A first request for [a.png] (without [nocache]) carried through:
    [image], the tick that starts the pool, [run], the worker's [_load],
    and the tick that delivers the result. *)
Definition first_requested : Loader :=
  snd (image ext_offline (Some "a.png") None None ∅ (init ∅ [] disk)).
Definition first_started : Loader := snd (_update first_requested).
Definition first_loaded : Loader :=
  let '(tasks, s) := run first_started in
  fold_left (fun s kwargs => snd (_load ext_offline kwargs s)) tasks s.
Definition first_resolved : Loader := snd (_update first_loaded).

(** A decoder that knows no file type: it returns [None]. *)
Definition decode_unknown (fs : gmap string string) (f : string) (kw : kwargs_t)
  : outcome PyData := Ret DNone.

Definition ext_unknown : Externals :=
  mkExternals loading_gif missing_png decode_unknown true (Some 3%Z) "/tmp" "ab12"
    (fun _ => OpenFails).

(** A request as [image('')] queues it. *)
Definition blank_request : LoadRequest := mkRequest (Some "") None None ∅.

(** A request as [image(None)] queues it. *)
Definition none_request : LoadRequest := mkRequest None None None ∅.

Definition sample_url : string := "http://example.invalid/a.png".

(** ** More of the loader *)





(** [LoaderThreadPool.run] as the source writes it: while running, pop the
    right end of [_q_load] and hand it to the pool, until the pop raises.
    [fuel] bounds the iterations; [tasks] are the requests handed over so
    far, oldest first. *)
Fixpoint run_loop (fuel : nat) (tasks : list LoadRequest) (s : Loader)
  : list LoadRequest * Loader :=
  match fuel with
  | O => (tasks, s)
  | S fuel' =>
      if _running s then
        match deque_pop (_q_load s) with
        | None => (tasks, s)
        | Some (rest, parameters) =>
            run_loop fuel' (tasks ++ [parameters]) (set_q_load rest s)
        end
      else (tasks, s)
  end.

(** The heap after the loop over [self._client[:]]: every binding of
    [filename] in [copy] has its [ProxyImage] updated. *)
Definition deliver_to (filename : filename_t) (image : Image)
    (copy : list (filename_t * nat)) (hp : list ProxyImage) : list ProxyImage :=
  fold_left
    (fun hp b => if decide (filename = fst b) then alter (deliver image) (snd b) hp else hp)
    copy hp.





(** PySMB is not installed. *)
Definition ext_no_smb : Externals :=
  mkExternals loading_gif missing_png decode_existing false (Some 3%Z) "/tmp" "ab12"
    (fun _ => OpenFails).

Definition smb_url : string := "smb://nas/a.png".

(** A request for an smb URL without PySMB, carried up to the worker's
    [_load]. *)
Definition smb_requested : Loader :=
  snd (image ext_no_smb (Some smb_url) None None ∅ fresh_loader).
Definition smb_loaded : Loader :=
  let '(tasks, s) := run (snd (_update smb_requested)) in
  fold_left (fun s kwargs => snd (_load ext_no_smb kwargs s)) tasks s.


(** [a.png] is requested and the pool started; the finished load in
    [_q_done] is of another file. *)
Definition other_done : Loader :=
  set_q_done [(Some "b.png", DImage (mkImage "b.png" false))] first_started.

(** Four finished loads: the bound [2 * 2] of a fresh loader. *)
Definition full_queue : Loader :=
  set_q_done (replicate 4 (Some "a.png", DImage (mkImage "a.png" false))) fresh_loader.


(** ** The dispatcher: lemmas *)

Lemma deque_pop_Some {A} (q r : list A) (x : A) :
  deque_pop q = Some (r, x) -> q = r ++ [x].
Proof.
  unfold deque_pop. destruct (rev q) as [|y t] eqn:E; [discriminate|].
  intros [= <- <-]. rewrite <- (rev_involutive q), E. reflexivity.
Qed.

Lemma deque_pop_None {A} (q : list A) : deque_pop q = None -> q = [].
Proof.
  unfold deque_pop. destruct (rev q) as [|y t] eqn:E; [|discriminate].
  intros _. rewrite <- (rev_involutive q), E. reflexivity.
Qed.

(** What the loop over the clients leaves alone. *)
Lemma update_clients_frame filename image copy s :
  let s' := update_clients filename image copy s in
  _q_done s' = _q_done s /\ _q_load s' = _q_load s /\ cache s' = cache s
  /\ trigger_calls s' = trigger_calls s /\ _paused s' = _paused s
  /\ _max_upload_per_frame s' = _max_upload_per_frame s.
Proof.
  revert s. induction copy as [|[c_filename client] copy IH]; intros s; simpl.
  - tauto.
  - destruct (decide (filename = c_filename)); [|apply IH].
    match goal with |- context [update_clients _ _ _ ?t] => specialize (IH t) end.
    simpl in IH. exact IH.
Qed.

Lemma publish_frame filename image s :
  let s' := publish filename image s in
  _q_done s' = _q_done s /\ _q_load s' = _q_load s
  /\ trigger_calls s' = trigger_calls s /\ _paused s' = _paused s
  /\ _max_upload_per_frame s' = _max_upload_per_frame s.
Proof.
  unfold publish. cbv zeta.
  match goal with |- context [update_clients ?f ?i ?c ?t] =>
    destruct (update_clients_frame f i c t) as (Fq & Fl & _ & Ft & Fp & Fm) end.
  cbv zeta in *. rewrite Fq, Fl, Ft, Fp, Fm.
  destruct (nocache image); simpl; tauto.
Qed.


(** The loop leaves the pause flag and the quota alone. *)
Lemma update_loop_frame k : forall s,
  _paused (snd (update_loop k s)) = _paused s
  /\ _max_upload_per_frame (snd (update_loop k s)) = _max_upload_per_frame s.
Proof.
  induction k as [|k IH]; intros s; simpl; [tauto|].
  destruct (deque_pop (_q_done s)) as [[rest [filename [|image]]]|]; simpl; try tauto.
  specialize (IH (publish filename image (set_q_done rest s))).
  destruct (publish_frame filename image (set_q_done rest s)) as (_ & _ & _ & Fp & Fm).
  cbv zeta in *. simpl in Fp, Fm. destruct IH as [-> ->]. tauto.
Qed.

(** On a queue of images the loop raises nothing and pops exactly the [k]
    rightmost entries (all of them if there are fewer). *)
Lemma update_loop_images k : forall s,
  Forall is_image (_q_done s) ->
  (exists x, fst (update_loop k s) = Ret x)
  /\ _q_done (snd (update_loop k s)) = take (length (_q_done s) - k) (_q_done s).
Proof.
  induction k as [|k IH]; intros s Hall; simpl.
  - split; [eauto|]. rewrite Nat.sub_0_r, firstn_all. reflexivity.
  - destruct (deque_pop (_q_done s)) as [[rest [filename data]]|] eqn:E.
    + apply deque_pop_Some in E. rewrite E in Hall |- *.
      apply Forall_app in Hall. destruct Hall as [Hrest Hx].
      apply Forall_cons in Hx. destruct Hx as [Hx _].
      destruct data as [|image]; [exfalso; apply Hx; reflexivity|].
      specialize (IH (publish filename image (set_q_done rest s))).
      destruct (publish_frame filename image (set_q_done rest s)) as (Fq & _).
      cbv zeta in *. simpl in Fq. rewrite Fq in IH.
      destruct (IH Hrest) as [Ho Hq'].
      split; [exact Ho|]. rewrite Hq', length_app. simpl.
      replace (length rest + 1 - S k) with (length rest - k) by lia.
      rewrite take_app_le by lia. reflexivity.
    + apply deque_pop_None in E. simpl. rewrite E. split; [eauto|reflexivity].
Qed.

(** The start-up step of [_update] touches neither queue, cache, objects,
    pause flag, quota nor trigger. *)
Lemma update_prologue_frame s :
  let s' := update_prologue s in
  _q_done s' = _q_done s /\ _q_load s' = _q_load s /\ cache s' = cache s
  /\ heap s' = heap s /\ _client s' = _client s
  /\ trigger_calls s' = trigger_calls s /\ _paused s' = _paused s
  /\ _max_upload_per_frame s' = _max_upload_per_frame s.
Proof.
  unfold update_prologue. destruct (_start_wanted s), (_running s); simpl; tauto.
Qed.

Lemma update_unfold s :
  _update s =
    let s := update_prologue s in
    if _paused s then (Ret tt, _trigger_update s)
    else
      match _max_upload_per_frame s with
      | None => (Raise TypeError, s)
      | Some n =>
          match update_loop (Z.to_nat n) s with
          | (Ret RangeDone, s) => (Ret tt, _trigger_update s)
          | (Ret QueueEmpty, s) => (Ret tt, s)
          | (Raise e, s) => (Raise e, s)
          end
      end.
Proof. reflexivity. Qed.

(** A paused invocation: returns, re-arms, and changes nothing else that
    the dispatcher owns. *)
Lemma update_paused s :
  _paused s = true ->
  fst (_update s) = Ret tt
  /\ _q_done (snd (_update s)) = _q_done s
  /\ cache (snd (_update s)) = cache s
  /\ heap (snd (_update s)) = heap s
  /\ _client (snd (_update s)) = _client s
  /\ _paused (snd (_update s)) = true
  /\ trigger_calls (snd (_update s)) = S (trigger_calls s).
Proof.
  intros Hp. rewrite update_unfold. cbv zeta.
  destruct (update_prologue_frame s) as (Fq & _ & Fc & Fh & Fcl & Ft & Fp & _).
  cbv zeta in *. rewrite Fp, Hp. simpl.
  rewrite Fq, Fc, Fh, Fcl, Ft, Fp, Hp. repeat split.
Qed.

(** An unpaused invocation on a queue of images returns and leaves all but
    the quota's worth of rightmost entries. *)
Lemma update_images s n :
  _paused s = false ->
  _max_upload_per_frame s = Some n ->
  Forall is_image (_q_done s) ->
  fst (_update s) = Ret tt
  /\ _q_done (snd (_update s)) = take (length (_q_done s) - Z.to_nat n) (_q_done s)
  /\ _paused (snd (_update s)) = false
  /\ _max_upload_per_frame (snd (_update s)) = Some n.
Proof.
  intros Hp Hn Hall. rewrite update_unfold. cbv zeta.
  destruct (update_prologue_frame s) as (Fq & _ & _ & _ & _ & _ & Fp & Fm).
  cbv zeta in *. rewrite Fp, Hp, Fm, Hn. rewrite <- Fq in Hall |- *.
  destruct (update_loop_images (Z.to_nat n) (update_prologue s) Hall) as [[x Hx] Hq].
  destruct (update_loop_frame (Z.to_nat n) (update_prologue s)) as [Lp Lm].
  rewrite Fp, Hp in Lp. rewrite Fm, Hn in Lm.
  destruct (update_loop (Z.to_nat n) (update_prologue s)) as [o s1]. simpl in *.
  subst o. destruct x; simpl; auto.
Qed.


(** ** Theorems *)

(** C9. [_set_num_workers]: a value below 2 (in particular 1) raises and
    leaves the stored worker count (indeed the whole loader) as it was; a
    value of 2 or more is stored. *)
Theorem set_num_workers_spec (s : Loader) (num : Z) :
  ((num < 2)%Z ->
     fst (_set_num_workers num s) = Raise Exception
     /\ snd (_set_num_workers num s) = s
     /\ _get_num_workers (snd (_set_num_workers num s)) = _get_num_workers s)
  /\ ((2 <= num)%Z ->
     fst (_set_num_workers num s) = Ret tt
     /\ _get_num_workers (snd (_set_num_workers num s)) = num).
Proof.
  unfold _set_num_workers. split; intros H.
  - destruct (Z.ltb_spec num 2); [|lia]. auto.
  - destruct (Z.ltb_spec num 2); [lia|]. auto.
Qed.


(** C5. While the loader is paused, any number of consecutive invocations
    of [_update] all return, pop nothing from [_q_done], write nothing to
    the cache, touch no [ProxyImage] and no client binding, and each one
    calls [_trigger_update]. *)
Theorem paused_ticks_drain_nothing (n : nat) : forall s : Loader,
  _paused s = true ->
  Forall (fun o => o = Ret tt) (fst (ticks n s))
  /\ length (fst (ticks n s)) = n
  /\ _q_done (snd (ticks n s)) = _q_done s
  /\ cache (snd (ticks n s)) = cache s
  /\ heap (snd (ticks n s)) = heap s
  /\ _client (snd (ticks n s)) = _client s
  /\ _paused (snd (ticks n s)) = true
  /\ trigger_calls (snd (ticks n s)) = n + trigger_calls s.
Proof.
  induction n as [|n IH]; intros s Hp.
  - simpl. repeat split; auto.
  - destruct (update_paused s Hp) as (Ho & Hq & Hc & Hh & Hcl & Hp' & Ht).
    simpl. destruct (_update s) as [o s1]. simpl in *.
    specialize (IH s1 Hp'). destruct (ticks n s1) as [outs s2]. simpl in *.
    destruct IH as (Io & Il & Iq & Ic & Ih & Icl & Ip & It).
    refine (conj _ (conj _ (conj _ (conj _ (conj _ (conj _ (conj _ _))))))); try congruence.
    + constructor; assumption.
    + lia.
Qed.


(** C10, as the code has it.  The setter stores [None]; with [None] stored,
    an invocation of [_update] on an unpaused loader raises a TypeError at
    [range(None)], but on a paused loader it re-arms and returns before the
    range is evaluated; every execution of [_load] raises a TypeError in the
    backpressure comparison.  With an integer stored, neither expression
    raises a TypeError. *)
Theorem unlimited_quota_breaks (ext : Externals) (s : Loader) :
  _set_max_upload_per_frame None s = (Ret tt, set_max_upload None s)
  /\ (_max_upload_per_frame s = None ->
      (_paused s = false -> fst (_update s) = Raise TypeError)
      /\ (_paused s = true -> fst (_update s) = Ret tt)
      /\ (forall kwargs, _load ext kwargs s = (Done (Raise TypeError), s)))
  /\ (forall n : Z, _max_upload_per_frame s = Some n ->
      fst (_update s) <> Raise TypeError
      /\ backpressure s <> Raise TypeError).
Proof.
  split; [reflexivity|]. split.
  - intros Hn. refine (conj _ (conj _ _)).
    + intros Hp. rewrite update_unfold. cbv zeta.
      destruct (update_prologue_frame s) as (_ & _ & _ & _ & _ & _ & Fp & Fm).
      cbv zeta in *. rewrite Fp, Hp, Fm, Hn. reflexivity.
    + intros Hp. apply (update_paused s Hp).
    + intros kwargs. unfold _load, backpressure, _get_max_upload_per_frame.
      rewrite Hn. reflexivity.
  - intros n Hn. split.
    + rewrite update_unfold. cbv zeta.
      destruct (update_prologue_frame s) as (_ & _ & _ & _ & _ & _ & Fp & Fm).
      cbv zeta in *. rewrite Fm, Hn.
      destruct (_paused (update_prologue s)); [discriminate|].
      assert (Hloop : forall k t, fst (update_loop k t) <> Raise TypeError).
      { induction k as [|k IH]; intros t; simpl; [discriminate|].
        destruct (deque_pop (_q_done t)) as [[rest [f [|image]]]|];
          simpl; try discriminate. apply IH. }
      specialize (Hloop (Z.to_nat n) (update_prologue s)).
      destruct (update_loop (Z.to_nat n) (update_prologue s)) as [[[]|e] s1];
        simpl in *; congruence.
    + unfold backpressure, _get_max_upload_per_frame. rewrite Hn. discriminate.
Qed.

(** ** The theorems at sample inputs *)

Lemma set_num_workers_spec_at_1_and_2 :
  ((1 < 2)%Z /\ fst (_set_num_workers 1 fresh_loader) = Raise Exception
             /\ _get_num_workers (snd (_set_num_workers 1 fresh_loader)) = 2%Z)
  /\ ((2 <= 2)%Z /\ fst (_set_num_workers 2 fresh_loader) = Ret tt)
  /\ ((2 <= 5)%Z /\ _get_num_workers (snd (_set_num_workers 5 fresh_loader)) = 5%Z).
Proof.
  refine (conj _ (conj _ _)).
  - assert (H : (1 < 2)%Z) by lia. split; [exact H|].
    destruct (proj1 (set_num_workers_spec fresh_loader 1) H) as (Ho & _ & Hn).
    split; [exact Ho|]. rewrite Hn. reflexivity.
  - assert (H : (2 <= 2)%Z) by lia. split; [exact H|].
    exact (proj1 (proj2 (set_num_workers_spec fresh_loader 2) H)).
  - assert (H : (2 <= 5)%Z) by lia. split; [exact H|].
    exact (proj2 (proj2 (set_num_workers_spec fresh_loader 5) H)).
Defined.


Lemma paused_ticks_backlog :
  _paused (pause backlog) = true
  /\ _q_done (snd (ticks 5 (pause backlog))) = _q_done backlog
  /\ trigger_calls (snd (ticks 5 (pause backlog))) = 5.
Proof.
  split; [reflexivity|].
  destruct (paused_ticks_drain_nothing 5 (pause backlog) eq_refl)
    as (_ & _ & Hq & _ & _ & _ & _ & Ht).
  split; [exact Hq | exact Ht].
Defined.



Lemma unlimited_quota_samples :
  (_max_upload_per_frame paused_unlimited = None
   /\ _paused paused_unlimited = true
   /\ fst (_update paused_unlimited) = Ret tt)
  /\ (_max_upload_per_frame (resume paused_unlimited) = None
      /\ _paused (resume paused_unlimited) = false
      /\ fst (_update (resume paused_unlimited)) = Raise TypeError)
  /\ (_max_upload_per_frame backlog = Some 2%Z
      /\ fst (_update backlog) <> Raise TypeError).
Proof.
  refine (conj _ (conj _ _)).
  - refine (conj eq_refl (conj eq_refl _)).
    exact (proj1 (proj2 (proj1 (proj2 (unlimited_quota_breaks ext_offline paused_unlimited))
                           eq_refl)) eq_refl).
  - refine (conj eq_refl (conj eq_refl _)).
    exact (proj1 (proj1 (proj2 (unlimited_quota_breaks ext_offline (resume paused_unlimited)))
                    eq_refl) eq_refl).
  - refine (conj eq_refl _).
    exact (proj1 (proj2 (proj2 (unlimited_quota_breaks ext_offline backlog)) 2%Z eq_refl)).
Defined.

(** C10 as stated fails: with [None] stored and the loader paused,
    [_update] returns normally. *)
Lemma update_paused_unlimited_returns :
  _max_upload_per_frame paused_unlimited = None
  /\ fst (_update paused_unlimited) = Ret tt
  /\ fst (_update paused_unlimited) <> Raise TypeError.
Proof. repeat split. simpl. discriminate. Qed.

(** ** [image]: lemmas *)










(** ** The network loader: lemmas *)

Arguments tmp_name : simpl never.

Lemma tmp_name_nonempty ext (suffix : string) :
  String.eqb (tmp_name ext suffix) "" = false.
Proof. unfold tmp_name. destruct (mkstemp_dir ext); reflexivity. Qed.

(** Anything but an smb URL without PySMB gets past the import. *)
Lemma smb_gate ext filename :
  (before_first ":"%char filename = "smb" -> smb_importable ext = true) ->
  String.eqb (before_first ":"%char filename) "smb" && negb (smb_importable ext) = false.
Proof.
  intros Hsmb.
  destruct (String.eqb_spec (before_first ":"%char filename) "smb") as [E|E]; [|reflexivity].
  rewrite (Hsmb E). reflexivity.
Qed.

Ltac urllib_step :=
  progress (cbn -[tmp_name];
            rewrite ?lookup_insert_eq, ?lookup_delete_eq, ?tmp_name_nonempty).

Ltac urllib_unfold :=
  unfold _load_urllib, temp_file, urllib_try, mkstemp, _load_local,
    _get_error_image, then_finally, urllib_finally, os_close, os_write, os_unlink.

(** C3, at the code.  Whenever the body of the [try] in [_load_urllib]
    fails (the fetch, the write or the decode raises), the call does not
    return the error image: it raises.  With the descriptor already closed
    and cleared (a decode failure) or never obtained, [close(None)] in the
    handler raises a TypeError that [except OSError] does not catch; with
    the descriptor still set (a fetch failure) the handler closes it and the
    [finally] clause closes it again, which raises an OSError over the
    pending [return self.error_image]. *)
Theorem load_urllib_failure_raises (ext : Externals) (filename : string)
    (kwargs : kwargs_t) (s : Loader) (e : exn) :
  (before_first ":"%char filename = "smb" -> smb_importable ext = true) ->
  mkstemp_fd ext <> Some 0%Z ->
  fst (fst (urllib_try ext filename kwargs s)) = Raise e ->
  fst (_load_urllib ext filename kwargs s) =
    Raise (match l_out_osfd (snd (fst (urllib_try ext filename kwargs s))) with
           | None => TypeError
           | Some _ => OSError
           end).
Proof.
  intros Hsmb Hk0. urllib_unfold. rewrite (smb_gate _ _ Hsmb).
  destruct (mkstemp_fd ext) as [k|] eqn:Hk.
  - assert (Hz : (k =? 0)%Z = false) by (apply Z.eqb_neq; congruence).
    destruct (urlopen ext filename) as [| |idata]; repeat urllib_step.
    + intros _. destruct (_error_image s); repeat urllib_step; rewrite Hz;
        repeat urllib_step; reflexivity.
    + intros _. destruct (_error_image s); repeat urllib_step; rewrite Hz;
        repeat urllib_step; reflexivity.
    + destruct (ImageLoader_load ext _ _ _) as [[|i]|e']; repeat urllib_step;
        intros He; try discriminate; reflexivity.
  - repeat urllib_step. intros _. reflexivity.
Qed.

(** C4, at the code.  When the fetch fails, [_load_urllib] raises in the
    [finally] clause at the second [close] and never reaches [unlink]: the
    temporary file is still there.  When the bytes arrive, the file is
    gone afterwards, whether or not they decode. *)
Theorem load_urllib_temp_file (ext : Externals) (filename : string)
    (kwargs : kwargs_t) (s : Loader) (k : Z) :
  (before_first ":"%char filename = "smb" -> smb_importable ext = true) ->
  mkstemp_fd ext = Some k ->
  let r := _load_urllib ext filename kwargs s in
  (k <> 0%Z ->
   urlopen ext filename = OpenFails \/ urlopen ext filename = ReadFails ->
   fst r = Raise OSError
   /\ is_Some (files (os (snd r)) !! temp_file ext filename))
  /\ (forall idata : string,
        urlopen ext filename = Body idata ->
        files (os (snd r)) !! temp_file ext filename = None).
Proof.
  intros Hsmb Hk. cbv zeta. urllib_unfold. rewrite (smb_gate _ _ Hsmb), Hk. split.
  - intros Hk0 Hf. apply Z.eqb_neq in Hk0.
    destruct Hf as [Hf|Hf]; rewrite Hf; repeat urllib_step;
      destruct (_error_image s); repeat urllib_step; rewrite Hk0;
      repeat urllib_step; split; eauto.
  - intros idata Hf. rewrite Hf. repeat urllib_step.
    destruct (ImageLoader_load ext _ _ _) as [[|i]|e']; repeat urllib_step;
      reflexivity.
Qed.

(** C7, at the code.  [None] for a file name is dropped without a trace,
    but a [str] is not, the blank [''] included: once past its two waits,
    [_load] hands it to a loading function and either raises what that
    raises or appends the result to [_q_done] and calls the trigger. *)
Theorem load_str_not_dropped (ext : Externals) (kwargs : LoadRequest) (s : Loader) :
  backpressure s = Ret false ->
  _running s && _paused s = false ->
  (rq_filename kwargs = None -> _load ext kwargs s = (Done (Ret tt), s))
  /\ (forall filename : string,
        rq_filename kwargs = Some filename ->
        (exists e, fst (_load ext kwargs s) = Done (Raise e))
        \/ (fst (_load ext kwargs s) = Done (Ret tt)
            /\ exists data,
                 _q_done (snd (_load ext kwargs s)) = (Some filename, data) :: _q_done s)).
Proof.
  intros Hb Hw. unfold _load. rewrite Hb, Hw. split.
  - intros ->. reflexivity.
  - intros filename ->.
    assert (Hq : forall t, _q_done (snd (_load_urllib ext filename (rq_kwargs kwargs) t))
                           = _q_done t).
    { intros t. urllib_unfold.
      destruct (String.eqb _ _ && negb _); [reflexivity|].
      destruct (mkstemp_fd ext) as [k|]; [|reflexivity].
      destruct (urlopen ext filename) as [| |idata]; repeat urllib_step.
      - destruct (_error_image t); repeat urllib_step;
          destruct (k =? 0)%Z; repeat urllib_step; reflexivity.
      - destruct (_error_image t); repeat urllib_step;
          destruct (k =? 0)%Z; repeat urllib_step; reflexivity.
      - destruct (ImageLoader_load ext _ _ _) as [[|i]|e']; repeat urllib_step;
          reflexivity. }
    destruct (rq_load_callback kwargs) as [load_callback|].
    + destruct (load_callback (Some filename)) as [data|e]; [|left; eauto].
      destruct (rq_post_callback kwargs) as [post_callback|];
        [destruct (post_callback data) as [data'|e]|]; simpl; eauto.
    + destruct (is_net_proto (before_first ":"%char filename)).
      * specialize (Hq s).
        destruct (_load_urllib ext filename (rq_kwargs kwargs) s) as [[data|e] s1];
          [|left; eauto]. simpl in Hq.
        destruct (rq_post_callback kwargs) as [post_callback|];
          [destruct (post_callback data) as [data'|e]|]; simpl; rewrite ?Hq; eauto.
      * destruct (_load_local ext filename (rq_kwargs kwargs) s) as [data|e];
          [|left; eauto].
        destruct (rq_post_callback kwargs) as [post_callback|];
          [destruct (post_callback data) as [data'|e]|]; simpl; eauto.
Qed.

Lemma load_urllib_failure_samples :
  (fst (fst (urllib_try ext_offline sample_url ∅ fresh_loader)) = Raise URLError
   /\ fst (_load_urllib ext_offline sample_url ∅ fresh_loader) = Raise OSError)
  /\ (fst (fst (urllib_try ext_garbage sample_url ∅ fresh_loader)) = Raise Exception
      /\ fst (_load_urllib ext_garbage sample_url ∅ fresh_loader) = Raise TypeError).
Proof.
  split.
  - assert (H : fst (fst (urllib_try ext_offline sample_url ∅ fresh_loader)) = Raise URLError)
      by reflexivity.
    split; [exact H|].
    refine (load_urllib_failure_raises ext_offline sample_url ∅ fresh_loader URLError _ _ H).
    + intros E. discriminate E.
    + intros E. discriminate E.
  - assert (H : fst (fst (urllib_try ext_garbage sample_url ∅ fresh_loader)) = Raise Exception)
      by reflexivity.
    split; [exact H|].
    refine (load_urllib_failure_raises ext_garbage sample_url ∅ fresh_loader Exception _ _ H).
    + intros E. discriminate E.
    + intros E. discriminate E.
Defined.

Lemma load_urllib_temp_file_samples :
  (mkstemp_fd ext_offline = Some 3%Z
   /\ urlopen ext_offline sample_url = OpenFails
   /\ temp_file ext_offline sample_url = "/tmp/kivyloaderab12.png"
   /\ fst (_load_urllib ext_offline sample_url ∅ fresh_loader) = Raise OSError
   /\ is_Some (files (os (snd (_load_urllib ext_offline sample_url ∅ fresh_loader)))
                 !! temp_file ext_offline sample_url))
  /\ (urlopen ext_online sample_url = Body "PNG!"
      /\ files (os (snd (_load_urllib ext_online sample_url ∅ fresh_loader)))
            !! temp_file ext_online sample_url = None).
Proof.
  split.
  - refine (conj eq_refl (conj eq_refl (conj eq_refl _))).
    refine (proj1 (load_urllib_temp_file ext_offline sample_url ∅ fresh_loader 3 _ eq_refl)
              _ (or_introl eq_refl)).
    + intros E. discriminate E.
    + intros E. discriminate E.
  - refine (conj eq_refl _).
    refine (proj2 (load_urllib_temp_file ext_online sample_url ∅ fresh_loader 3 _ eq_refl)
              "PNG!" eq_refl).
    intros E. discriminate E.
Defined.

Lemma load_blank_samples :
  (backpressure fresh_loader = Ret false
   /\ rq_filename blank_request = Some ""
   /\ fst (_load ext_offline blank_request fresh_loader) = Done (Raise IOError)
   /\ _q_done (snd (_load ext_unknown blank_request fresh_loader)) = [(Some "", DNone)])
  /\ (rq_filename none_request = None
      /\ _load ext_offline none_request fresh_loader = (Done (Ret tt), fresh_loader)).
Proof.
  assert (Hb : backpressure fresh_loader = Ret false) by reflexivity.
  assert (Hw : _running fresh_loader && _paused fresh_loader = false) by reflexivity.
  split.
  - refine (conj Hb (conj eq_refl _)). split.
    + destruct (proj2 (load_str_not_dropped ext_offline blank_request fresh_loader Hb Hw)
                  "" eq_refl) as [[e He]|[Hr _]].
      * reflexivity.
      * discriminate Hr.
    + destruct (proj2 (load_str_not_dropped ext_unknown blank_request fresh_loader Hb Hw)
                  "" eq_refl) as [[e He]|[_ [data Hd]]].
      * discriminate He.
      * reflexivity.
  - split; [reflexivity|].
    exact (proj1 (load_str_not_dropped ext_offline none_request fresh_loader Hb Hw) eq_refl).
Defined.

(** ** The dispatcher, closer up *)

Lemma update_clients_heap filename image copy : forall s,
  heap (update_clients filename image copy s) = deliver_to filename image copy (heap s).
Proof.
  induction copy as [|[c_filename client] copy IH]; intros s; simpl; [reflexivity|].
  destruct (decide (filename = c_filename)); rewrite IH; reflexivity.
Qed.

Lemma list_remove_middle {A} `{EqDecision A} (x : A) (pre rest : list A) :
  x ∉ pre -> list_remove x (pre ++ x :: rest) = pre ++ rest.
Proof.
  induction pre as [|y pre IH]; intros Hx; simpl.
  - rewrite decide_True by reflexivity. reflexivity.
  - apply not_elem_of_cons in Hx. destruct Hx as [Hne Hx].
    rewrite decide_False by assumption. rewrite IH by assumption. reflexivity.
Qed.

(** The registry after the loop: the bindings of [filename] are gone, the
    others stay, in order. *)
Lemma update_clients_client filename image copy : forall pre s,
  _client s = pre ++ copy ->
  Forall (fun b => fst b <> filename) pre ->
  _client (update_clients filename image copy s)
  = pre ++ filter (fun b => fst b <> filename) copy.
Proof.
  induction copy as [|[c_filename client] copy IH]; intros pre s Hs Hpre; simpl.
  - rewrite Hs. reflexivity.
  - destruct (decide (filename = c_filename)) as [<-|Hne].
    + rewrite filter_cons_False by (simpl; tauto).
      apply IH; [|assumption]. simpl. rewrite Hs.
      apply list_remove_middle. intros Hin.
      rewrite Forall_forall in Hpre. apply (Hpre _ Hin). reflexivity.
    + rewrite filter_cons_True by (simpl; congruence).
      rewrite (IH (pre ++ [(c_filename, client)]) s).
      * rewrite <- app_assoc. reflexivity.
      * rewrite Hs, <- app_assoc. reflexivity.
      * apply Forall_app. split; [assumption|]. constructor; [simpl; congruence|constructor].
Qed.

Lemma deliver_to_length filename image copy : forall hp,
  length (deliver_to filename image copy hp) = length hp.
Proof.
  induction copy as [|b copy IH]; intros hp; simpl; [reflexivity|].
  rewrite IH. destruct (decide (filename = fst b)); [apply length_alter|reflexivity].
Qed.

(** An object that no binding of [filename] points to is not touched. *)
Lemma deliver_to_other filename image copy h : forall hp,
  (filename, h) ∉ copy ->
  deliver_to filename image copy hp !! h = hp !! h.
Proof.
  induction copy as [|[c_filename client] copy IH]; intros hp Hnot; simpl; [reflexivity|].
  apply not_elem_of_cons in Hnot. destruct Hnot as [Hne Hnot].
  rewrite IH by assumption.
  destruct (decide (filename = c_filename)) as [<-|]; simpl; [|reflexivity].
  apply list_lookup_alter_ne. congruence.
Qed.

(** An object that one binding of [filename] points to is updated once. *)
Lemma deliver_to_bound filename image copy h : forall hp,
  NoDup copy ->
  (filename, h) ∈ copy ->
  deliver_to filename image copy hp !! h = deliver image <$> hp !! h.
Proof.
  induction copy as [|[c_filename client] copy IH]; intros hp Hnd Hin; simpl.
  - apply elem_of_nil in Hin. contradiction.
  - apply NoDup_cons in Hnd. destruct Hnd as [Hfresh Hnd].
    apply elem_of_cons in Hin. destruct Hin as [[= <- <-]|Hin].
    + rewrite decide_True by reflexivity. simpl.
      rewrite deliver_to_other by assumption. apply list_lookup_alter_eq.
    + rewrite IH by assumption.
      destruct (decide (filename = c_filename)) as [<-|]; simpl; [|reflexivity].
      rewrite list_lookup_alter_ne; [reflexivity|].
      intros ->. contradiction.
Qed.

(** What [publish] does to the registry, the objects and the cache. *)
Lemma publish_effect filename image s :
  _client (publish filename image s) = filter (fun b => fst b <> filename) (_client s)
  /\ heap (publish filename image s) = deliver_to filename image (_client s) (heap s)
  /\ cache (publish filename image s)
     = (if nocache image then cache s else <[filename := CImage image]> (cache s)).
Proof.
  unfold publish. cbv zeta.
  match goal with |- context [update_clients ?f ?i ?c ?t] =>
    destruct (update_clients_frame f i c t) as (_ & _ & Fc & _);
    pose proof (update_clients_heap f i c t) as Hh;
    pose proof (update_clients_client f i c [] t eq_refl (Forall_nil_2 _)) as Hc
  end.
  cbv zeta in *. rewrite Hh, Hc, Fc. destruct (nocache image); simpl; auto.
Qed.

(** The loop on an empty queue. *)
Lemma update_loop_empty k s :
  _q_done s = [] ->
  update_loop k s = (Ret (match k with O => RangeDone | S _ => QueueEmpty end), s).
Proof. intros Hq. destruct k; simpl; [reflexivity|]. rewrite Hq. reflexivity. Qed.

Lemma deque_pop_app {A} (rest : list A) (x : A) : deque_pop (rest ++ [x]) = Some (rest, x).
Proof.
  unfold deque_pop. rewrite rev_app_distr. simpl. rewrite rev_involutive. reflexivity.
Qed.

(** One iteration of the loop on a queue that ends in an image. *)
Lemma update_loop_step k rest filename image s :
  _q_done s = rest ++ [(filename, DImage image)] ->
  update_loop (S k) s = update_loop k (publish filename image (set_q_done rest s)).
Proof. intros Hq. simpl. rewrite Hq, deque_pop_app. reflexivity. Qed.

(** Through a whole [_update], an object that no binding points to stays
    as it is, and no binding is added. *)
Lemma update_loop_untouched k h : forall s,
  h ∉ (_client s).*2 ->
  heap (snd (update_loop k s)) !! h = heap s !! h
  /\ h ∉ (_client (snd (update_loop k s))).*2.
Proof.
  induction k as [|k IH]; intros s Hh; simpl; [auto|].
  destruct (deque_pop (_q_done s)) as [[rest [filename [|image]]]|]; simpl; auto.
  destruct (publish_effect filename image (set_q_done rest s)) as (Hc & Hhp & _).
  simpl in Hc, Hhp.
  assert (Hh' : h ∉ (_client (publish filename image (set_q_done rest s))).*2).
  { rewrite Hc. intros Hin. apply Hh.
    apply list_elem_of_fmap in Hin. destruct Hin as (b & -> & Hb).
    apply list_elem_of_filter in Hb. apply list_elem_of_fmap_2, Hb. }
  destruct (IH _ Hh') as [-> Hk]. split; [|exact Hk].
  rewrite Hhp. apply deliver_to_other. intros Hin. apply Hh.
  apply (list_elem_of_fmap_2 snd) in Hin. exact Hin.
Qed.

(** ** More theorems on the dispatcher *)

(** X1. [_set_max_upload_per_frame]: a finite value below 1 raises and
    leaves the loader as it was; [None] and every value from 1 up are
    stored, and the getter reads them back. *)
Theorem set_max_upload_per_frame_spec (s : Loader) (num : option Z) :
  (forall n : Z, num = Some n -> (n < 1)%Z ->
     _set_max_upload_per_frame num s = (Raise Exception, s))
  /\ ((num = None \/ exists n : Z, num = Some n /\ (1 <= n)%Z) ->
      fst (_set_max_upload_per_frame num s) = Ret tt
      /\ _get_max_upload_per_frame (snd (_set_max_upload_per_frame num s)) = num
      /\ _get_num_workers (snd (_set_max_upload_per_frame num s)) = _get_num_workers s).
Proof.
  unfold _set_max_upload_per_frame. split.
  - intros n -> Hn. destruct (Z.ltb_spec n 1); [reflexivity|lia].
  - intros [->|(n & -> & Hn)]; [auto|].
    destruct (Z.ltb_spec n 1); [lia|auto].
Qed.

(** An unpaused invocation with one image in the queue. *)
Lemma update_single_entry (s : Loader) (n : Z) (key : filename_t) (img : Image) :
  _paused s = false ->
  _max_upload_per_frame s = Some n ->
  (1 <= n)%Z ->
  _q_done s = [(key, DImage img)] ->
  let s' := snd (_update s) in
  fst (_update s) = Ret tt
  /\ _q_done s' = []
  /\ _q_load s' = _q_load s
  /\ _client s' = filter (fun b => fst b <> key) (_client s)
  /\ heap s' = deliver_to key img (_client s) (heap s)
  /\ cache s' = (if nocache img then cache s else <[key := CImage img]> (cache s)).
Proof.
  intros Hp Hn H1 Hq. cbv zeta. rewrite update_unfold. cbv zeta.
  destruct (update_prologue_frame s) as (Fq & Fl & Fc & Fh & Fcl & _ & Fp & Fm).
  cbv zeta in *. rewrite Fp, Hp, Fm, Hn.
  destruct (Z.to_nat n) as [|k] eqn:Ek; [lia|].
  rewrite (update_loop_step k [] key img) by (rewrite Fq, Hq; reflexivity).
  destruct (publish_effect key img (set_q_done [] (update_prologue s))) as (Hc & Hh & Hca).
  destruct (publish_frame key img (set_q_done [] (update_prologue s))) as (Pq & Pl & _).
  cbv zeta in *. simpl in Hc, Hh, Hca, Pq, Pl.
  rewrite (update_loop_empty k _ Pq).
  rewrite Fcl in Hc, Hh. rewrite Fh in Hh. rewrite Fc in Hca. rewrite Fl in Pl.
  destruct k; simpl; repeat split; assumption.
Qed.

(** An unpaused invocation whose first pop yields [None] data. *)
Lemma update_none_entry (s : Loader) (n : Z) (rest : list (filename_t * PyData))
    (key : filename_t) :
  _paused s = false ->
  _max_upload_per_frame s = Some n ->
  (1 <= n)%Z ->
  _q_done s = rest ++ [(key, DNone)] ->
  fst (_update s) = Raise AttributeError
  /\ _q_done (snd (_update s)) = rest
  /\ _client (snd (_update s)) = _client s
  /\ heap (snd (_update s)) = heap s
  /\ cache (snd (_update s)) = cache s
  /\ trigger_calls (snd (_update s)) = trigger_calls s.
Proof.
  intros Hp Hn H1 Hq. rewrite update_unfold. cbv zeta.
  destruct (update_prologue_frame s) as (Fq & _ & Fc & Fh & Fcl & Ft & Fp & Fm).
  cbv zeta in *. rewrite Fp, Hp, Fm, Hn.
  destruct (Z.to_nat n) as [|k] eqn:Ek; [lia|].
  simpl. rewrite Fq, Hq, deque_pop_app. simpl. rewrite Fcl, Fh, Fc, Ft. repeat split.
Qed.


(** X2. The invocation of [_update] that finds one finished image in
    [_q_done] (quota at least 1) returns, empties the queue, removes every
    binding of that file name from [_client] and keeps the others in order;
    with distinct bindings, each [ProxyImage] bound to the file name gets
    the image, [loaded = True] and one ['on_load'], and no other object
    changes.  The cache gets the image unless the image says [nocache]. *)
Theorem update_delivers (s : Loader) (n : Z) (key : filename_t) (img : Image) :
  _paused s = false ->
  _max_upload_per_frame s = Some n ->
  (1 <= n)%Z ->
  _q_done s = [(key, DImage img)] ->
  NoDup (_client s) ->
  let s' := snd (_update s) in
  fst (_update s) = Ret tt
  /\ _q_done s' = []
  /\ _client s' = filter (fun b => fst b <> key) (_client s)
  /\ (forall h, (key, h) ∈ _client s -> heap s' !! h = deliver img <$> heap s !! h)
  /\ (forall h, (key, h) ∉ _client s -> heap s' !! h = heap s !! h)
  /\ cache s' = (if nocache img then cache s else <[key := CImage img]> (cache s)).
Proof.
  intros Hp Hn H1 Hq Hnd.
  destruct (update_single_entry s n key img Hp Hn H1 Hq) as (Ho & Hq' & _ & Hc & Hh & Hca).
  cbv zeta in *. rewrite Hh. repeat split; auto.
  - intros h Hin. apply deliver_to_bound; assumption.
  - intros h Hin. apply deliver_to_other; assumption.
Qed.

(** X3. An unpaused invocation of [_update] on a queue that holds only
    images returns and removes exactly the rightmost
    [min(quota, len)] entries, the ones [_load] appended first: what is
    left is the left (newest) part of the queue. *)
Theorem update_takes_oldest (s : Loader) (n : Z) :
  _paused s = false ->
  _max_upload_per_frame s = Some n ->
  Forall is_image (_q_done s) ->
  fst (_update s) = Ret tt
  /\ _q_done (snd (_update s)) = take (length (_q_done s) - Z.to_nat n) (_q_done s)
  /\ length (_q_done (snd (_update s))) = length (_q_done s) - Z.to_nat n.
Proof.
  intros Hp Hn Hall. destruct (update_images s n Hp Hn Hall) as (Ho & Hq & _).
  split; [exact Ho|]. split; [exact Hq|]. rewrite Hq, length_take. lia.
Qed.

(** X4. An invocation of [_update] that pops an entry whose data is [None]
    raises an AttributeError at [image.nocache]: the entry is gone from
    [_q_done], but no client is updated, no binding removed, nothing is
    cached and the trigger is not called. *)
Theorem update_none_entry_lost (s : Loader) (n : Z) (rest : list (filename_t * PyData))
    (key : filename_t) :
  _paused s = false ->
  _max_upload_per_frame s = Some n ->
  (1 <= n)%Z ->
  _q_done s = rest ++ [(key, DNone)] ->
  fst (_update s) = Raise AttributeError
  /\ _q_done (snd (_update s)) = rest
  /\ _client (snd (_update s)) = _client s
  /\ heap (snd (_update s)) = heap s
  /\ cache (snd (_update s)) = cache s
  /\ trigger_calls (snd (_update s)) = trigger_calls s.
Proof. apply update_none_entry. Qed.

(** X5. [_update] only ever changes a [ProxyImage] that is bound in
    [_client] when it starts: every other object (a handle returned from a
    cache hit, a handle already delivered) is left as it is, whatever is in
    the queue and however the invocation ends; and no binding is added. *)
Theorem update_touches_only_clients (s : Loader) (h : nat) :
  h ∉ (_client s).*2 ->
  heap (snd (_update s)) !! h = heap s !! h
  /\ h ∉ (_client (snd (_update s))).*2.
Proof.
  intros Hh. rewrite update_unfold. cbv zeta.
  destruct (update_prologue_frame s) as (_ & _ & _ & Fh & Fcl & _ & _ & _).
  cbv zeta in *.
  destruct (_paused (update_prologue s)); [simpl; rewrite Fh, Fcl; auto|].
  destruct (_max_upload_per_frame (update_prologue s)) as [n|];
    [|simpl; rewrite Fh, Fcl; auto].
  rewrite <- Fcl in Hh.
  destruct (update_loop_untouched (Z.to_nat n) h (update_prologue s) Hh) as [Hl Hc].
  rewrite Fh in Hl.
  destruct (update_loop (Z.to_nat n) (update_prologue s)) as [[[]|e] s1]; simpl in *; auto.
Qed.

(** ** The registry and the objects across calls *)

(** [_load_urllib] changes nothing of the loader but the operating system
    and the stored error image. *)
Lemma load_urllib_frame ext filename kwargs s :
  let s' := snd (_load_urllib ext filename kwargs s) in
  heap s' = heap s /\ _client s' = _client s /\ _q_done s' = _q_done s
  /\ _q_load s' = _q_load s /\ cache s' = cache s
  /\ trigger_calls s' = trigger_calls s /\ pool s' = pool s.
Proof.
  cbv zeta. urllib_unfold.
  destruct (String.eqb _ _ && negb _); [repeat split|].
  destruct (mkstemp_fd ext) as [k|]; [|repeat split].
  destruct (urlopen ext filename) as [| |idata]; repeat urllib_step.
  - destruct (_error_image s); repeat urllib_step;
      destruct (k =? 0)%Z; repeat urllib_step; repeat split.
  - destruct (_error_image s); repeat urllib_step;
      destruct (k =? 0)%Z; repeat urllib_step; repeat split.
  - destruct (ImageLoader_load ext _ _ _) as [[|i]|e']; repeat urllib_step;
      repeat split.
Qed.





(** Two bindings of one handle are one binding, when handles are distinct. *)
Lemma NoDup_snd_inj (l : list (filename_t * nat)) b1 b2 :
  NoDup l.*2 -> b1 ∈ l -> b2 ∈ l -> snd b1 = snd b2 -> b1 = b2.
Proof.
  induction l as [|b l IH]; intros Hnd H1 H2 Heq.
  - apply elem_of_nil in H1. contradiction.
  - rewrite fmap_cons in Hnd. apply NoDup_cons in Hnd. destruct Hnd as [Hfresh Hnd].
    apply elem_of_cons in H1. apply elem_of_cons in H2.
    destruct H1 as [->|H1], H2 as [->|H2]; auto.
    + exfalso. apply Hfresh. rewrite Heq. apply list_elem_of_fmap_2, H2.
    + exfalso. apply Hfresh. rewrite <- Heq. apply list_elem_of_fmap_2, H1.
Qed.






(** ** Start-up, hand-over and pausing *)





(** The [while] loop of [run], started with [tasks] handed over already. *)
Lemma run_loop_running fuel : forall tasks s,
  _running s = true ->
  length (_q_load s) <= fuel ->
  run_loop fuel tasks s = (tasks ++ rev (_q_load s), set_q_load [] s).
Proof.
  induction fuel as [|fuel IH]; intros tasks s Hr Hlen; simpl.
  - destruct s as [? ? ? ? ? ql ? ? ? ? ? ? ? ? ? ?]. simpl in *.
    destruct ql; [|simpl in Hlen; lia]. rewrite app_nil_r. reflexivity.
  - rewrite Hr. destruct (deque_pop (_q_load s)) as [[rest parameters]|] eqn:E.
    + apply deque_pop_Some in E. rewrite IH.
      * simpl. rewrite E, rev_app_distr, <- app_assoc. reflexivity.
      * exact Hr.
      * simpl. rewrite E, length_app in Hlen. simpl in Hlen. lia.
    + apply deque_pop_None in E.
      destruct s as [? ? ? ? ? ql ? ? ? ? ? ? ? ? ? ?]. simpl in *. subst ql.
      rewrite app_nil_r. reflexivity.
Qed.

(** X8. [LoaderThreadPool.run]: on a running loader the pop loop hands
    every queued request to the pool, the oldest first (the reverse of
    [_q_load], which [image] fills from the left), and leaves [_q_load]
    empty; it agrees with [run].  On a loader that is not running it hands
    over nothing and leaves the queue as it is. *)
Theorem run_hands_over_in_order (s : Loader) (fuel : nat) :
  length (_q_load s) <= fuel ->
  run_loop fuel [] s = run s
  /\ (_running s = true ->
      fst (run s) = rev (_q_load s) /\ _q_load (snd (run s)) = [])
  /\ (_running s = false -> run s = ([], s)).
Proof.
  intros Hlen. unfold run. destruct (_running s) eqn:Hr.
  - rewrite run_loop_running by assumption. simpl. repeat split; discriminate.
  - split; [destruct fuel; simpl; rewrite ?Hr; reflexivity|]. split; [discriminate|auto].
Qed.

(** A paused invocation, in full. *)
Lemma update_paused_state s :
  _paused s = true ->
  _update s = (Ret tt, _trigger_update (update_prologue s)).
Proof.
  intros Hp. rewrite update_unfold. cbv zeta.
  destruct (update_prologue_frame s) as (_ & _ & _ & _ & _ & _ & Fp & _).
  cbv zeta in *. rewrite Fp, Hp. reflexivity.
Qed.

Lemma ticks_paused_frame k : forall s,
  _paused s = true ->
  _q_done (snd (ticks k s)) = _q_done s
  /\ _max_upload_per_frame (snd (ticks k s)) = _max_upload_per_frame s
  /\ _paused (snd (ticks k s)) = true.
Proof.
  induction k as [|k IH]; intros s Hp; simpl; [auto|].
  rewrite (update_paused_state s Hp).
  destruct (update_prologue_frame s) as (Fq & _ & _ & _ & _ & _ & Fp & Fm).
  cbv zeta in *.
  assert (Hp' : _paused (_trigger_update (update_prologue s)) = true)
    by (simpl; rewrite Fp; exact Hp).
  specialize (IH _ Hp'). destruct (ticks k (_trigger_update (update_prologue s))) as [outs s2].
  simpl in *. destruct IH as (-> & -> & ->). auto.
Qed.

(** X9. Pausing loses nothing: after [pause], any number of ticks and
    [resume], the queue is as it was, and the next invocation of [_update]
    delivers from it as if there had been no pause (for a queue of images:
    it returns and removes the [min(quota, len)] oldest entries). *)
Theorem resume_drains (s : Loader) (n : Z) (k : nat) :
  _max_upload_per_frame s = Some n ->
  Forall is_image (_q_done s) ->
  let s1 := resume (snd (ticks k (pause s))) in
  _q_done s1 = _q_done s
  /\ fst (_update s1) = Ret tt
  /\ _q_done (snd (_update s1)) = take (length (_q_done s) - Z.to_nat n) (_q_done s).
Proof.
  intros Hn Hall. cbv zeta.
  destruct (ticks_paused_frame k (pause s) eq_refl) as (Hq & Hm & _).
  simpl in Hq, Hm.
  assert (Hq1 : _q_done (resume (snd (ticks k (pause s)))) = _q_done s) by exact Hq.
  assert (Hm1 : _max_upload_per_frame (resume (snd (ticks k (pause s)))) = Some n)
    by (rewrite <- Hn; exact Hm).
  assert (Hall1 : Forall is_image (_q_done (resume (snd (ticks k (pause s))))))
    by (rewrite Hq1; exact Hall).
  destruct (update_images (resume (snd (ticks k (pause s)))) n eq_refl Hm1 Hall1)
    as (Ho & Hq' & _).
  rewrite Hq1 in Hq'. auto.
Qed.

(** Through the drain loop, a binding whose file name has no entry in the
    queue stays, with its object. *)
Lemma update_loop_keeps_key k key h : forall s,
  NoDup (_client s).*2 ->
  Forall (fun e => fst e <> key) (_q_done s) ->
  (key, h) ∈ _client s ->
  (key, h) ∈ _client (snd (update_loop k s))
  /\ heap (snd (update_loop k s)) !! h = heap s !! h.
Proof.
  induction k as [|k IH]; intros s Hnd Hall Hin; simpl; [auto|].
  destruct (deque_pop (_q_done s)) as [[rest [filename data]]|] eqn:E; [|auto].
  apply deque_pop_Some in E. rewrite E in Hall.
  apply Forall_app in Hall. destruct Hall as [Hrest Hx].
  apply Forall_cons in Hx. destruct Hx as [Hx _]. simpl in Hx.
  destruct data as [|image]; simpl; [auto|].
  destruct (publish_effect filename image (set_q_done rest s)) as (Hc & Hh & _).
  destruct (publish_frame filename image (set_q_done rest s)) as (Pq & _).
  cbv zeta in *. simpl in Hc, Hh, Pq.
  destruct (IH (publish filename image (set_q_done rest s))) as [Hk Hl].
  - rewrite Hc. apply (sublist_NoDup _ (_client s).*2); [exact Hnd|].
    apply fmap_sublist, sublist_filter.
  - rewrite Pq. exact Hrest.
  - rewrite Hc. apply list_elem_of_filter. split; [simpl; congruence|exact Hin].
  - split; [exact Hk|]. rewrite Hl, Hh. apply deliver_to_other.
    intros Hb. apply Hx.
    pose proof (NoDup_snd_inj (_client s) (filename, h) (key, h) Hnd Hb Hin eq_refl) as Heq.
    congruence.
Qed.

(** X10. Delivery is by file name: an invocation of [_update] whose queue
    holds no entry for a file name leaves every binding of that file name
    in [_client] and its [ProxyImage] as it is (handles being distinct),
    whatever else it delivers and however it ends. *)
Theorem update_needs_entry (s : Loader) (key : filename_t) (h : nat) :
  NoDup (_client s).*2 ->
  Forall (fun e => fst e <> key) (_q_done s) ->
  (key, h) ∈ _client s ->
  (key, h) ∈ _client (snd (_update s))
  /\ heap (snd (_update s)) !! h = heap s !! h.
Proof.
  intros Hnd Hall Hin. rewrite update_unfold. cbv zeta.
  destruct (update_prologue_frame s) as (Fq & _ & _ & Fh & Fcl & _ & _ & _).
  cbv zeta in *.
  destruct (_paused (update_prologue s)); [simpl; rewrite Fh, Fcl; auto|].
  destruct (_max_upload_per_frame (update_prologue s)) as [n|];
    [|simpl; rewrite Fh, Fcl; auto].
  destruct (update_loop_keeps_key (Z.to_nat n) key h (update_prologue s)) as [Hk Hl].
  - rewrite Fcl. exact Hnd.
  - rewrite Fq. exact Hall.
  - rewrite Fcl. exact Hin.
  - rewrite Fh in Hl.
    destruct (update_loop (Z.to_nat n) (update_prologue s)) as [[[]|e] s1]; simpl in *; auto.
Qed.


(** ** The worker, closer up *)

(** [_load] leaves [_q_done] as it is or appends one entry at the left, the
    latter only past the backpressure check. *)
Lemma load_q_done ext kwargs s :
  _q_done (snd (_load ext kwargs s)) = _q_done s
  \/ (backpressure s = Ret false
      /\ exists e, _q_done (snd (_load ext kwargs s)) = e :: _q_done s).
Proof.
  unfold _load.
  destruct (backpressure s) as [[|]|e]; [left; reflexivity| |left; reflexivity].
  destruct (_running s && _paused s); [left; reflexivity|].
  destruct (rq_filename kwargs) as [filename|]; [|left; reflexivity].
  destruct (rq_load_callback kwargs) as [load_callback|].
  - destruct (load_callback (Some filename)) as [data|e]; [|left; reflexivity].
    destruct (rq_post_callback kwargs) as [post_callback|];
      [destruct (post_callback data) as [data'|e]|]; simpl; eauto.
  - destruct (is_net_proto (before_first ":"%char filename)).
    + destruct (load_urllib_frame ext filename (rq_kwargs kwargs) s) as (_ & _ & Hq & _).
      cbv zeta in *.
      destruct (_load_urllib ext filename (rq_kwargs kwargs) s) as [[data|e] s1];
        simpl in *; [|left; assumption].
      destruct (rq_post_callback kwargs) as [post_callback|];
        [destruct (post_callback data) as [data'|e]|]; simpl; rewrite ?Hq; eauto.
    + destruct (_load_local ext filename (rq_kwargs kwargs) s) as [data|e];
        [|left; reflexivity].
      destruct (rq_post_callback kwargs) as [post_callback|];
        [destruct (post_callback data) as [data'|e]|]; simpl; eauto.
Qed.

(** X12. The two waits of [_load].  With [len(_q_done)] at or above
    [max_upload_per_frame * num_workers] the worker sleeps and does nothing
    else; below it, on a running and paused loader, it waits for [resume]
    and does nothing else; on a paused loader that is not running it does
    not wait.  One execution never makes [_q_done] longer than that bound
    (or than it already was). *)
Theorem load_waits (ext : Externals) (kwargs : LoadRequest) (s : Loader) (m : Z) :
  _max_upload_per_frame s = Some m ->
  ((m * _num_workers s <= Z.of_nat (length (_q_done s)))%Z ->
     _load ext kwargs s = (Sleeping, s))
  /\ ((Z.of_nat (length (_q_done s)) < m * _num_workers s)%Z ->
      (_running s = true -> _paused s = true ->
         _load ext kwargs s = (WaitingResume, s))
      /\ (_running s = false ->
         exists o, fst (_load ext kwargs s) = Done o))
  /\ (Z.of_nat (length (_q_done (snd (_load ext kwargs s))))
       <= Z.max (Z.of_nat (length (_q_done s))) (m * _num_workers s))%Z.
Proof.
  intros Hm.
  assert (Hb : backpressure s
               = Ret (m * _num_workers s <=? Z.of_nat (length (_q_done s)))%Z)
    by (unfold backpressure, _get_max_upload_per_frame; rewrite Hm; reflexivity).
  refine (conj _ (conj _ _)).
  - intros Hfull. unfold _load. rewrite Hb.
    destruct (Z.leb_spec (m * _num_workers s) (Z.of_nat (length (_q_done s)))); [reflexivity|lia].
  - intros Hroom.
    assert (Hb' : backpressure s = Ret false).
    { rewrite Hb.
      destruct (Z.leb_spec (m * _num_workers s) (Z.of_nat (length (_q_done s))));
        [lia|reflexivity]. }
    split.
    + intros Hr Hp. unfold _load. rewrite Hb', Hr, Hp. reflexivity.
    + intros Hr. unfold _load. rewrite Hb', Hr. simpl.
      destruct (rq_filename kwargs) as [filename|]; [|eauto].
      destruct (rq_load_callback kwargs) as [load_callback|].
      * destruct (load_callback (Some filename)) as [data|e]; [|eauto].
        destruct (rq_post_callback kwargs) as [post_callback|];
          [destruct (post_callback data) as [data'|e]|]; simpl; eauto.
      * destruct (is_net_proto (before_first ":"%char filename)).
        -- destruct (_load_urllib ext filename (rq_kwargs kwargs) s) as [[data|e] s1];
             [|eauto].
           destruct (rq_post_callback kwargs) as [post_callback|];
             [destruct (post_callback data) as [data'|e]|]; simpl; eauto.
        -- destruct (_load_local ext filename (rq_kwargs kwargs) s) as [data|e]; [|eauto].
           destruct (rq_post_callback kwargs) as [post_callback|];
             [destruct (post_callback data) as [data'|e]|]; simpl; eauto.
  - destruct (load_q_done ext kwargs s) as [->|(Hb' & e & ->)]; [lia|].
    rewrite Hb in Hb'. injection Hb' as Hb'. apply Z.leb_gt in Hb'.
    simpl length. lia.
Qed.

(** X13. The network loader on the good path: the bytes fetched are what
    the decoder finds in the temporary file; the image it returns is handed
    back with the URL as its source; afterwards the temporary file and the
    descriptor are gone and no connection is left open. *)
Theorem load_urllib_success (ext : Externals) (filename : string) (kwargs : kwargs_t)
    (s : Loader) (k : Z) (idata : string) (i : Image) :
  (before_first ":"%char filename = "smb" -> smb_importable ext = true) ->
  mkstemp_fd ext = Some k ->
  urlopen ext filename = Body idata ->
  ImageLoader_load ext (<[temp_file ext filename := idata]> (files (os s)))
    (temp_file ext filename) kwargs = Ret (DImage i) ->
  let r := _load_urllib ext filename kwargs s in
  fst r = Ret (DImage (mkImage filename (nocache i)))
  /\ files (os (snd r)) = delete (temp_file ext filename) (files (os s))
  /\ fdtab (os (snd r)) = delete k (fdtab (os s))
  /\ conns (os (snd r)) = conns (os s).
Proof.
  intros Hsmb Hk Hf Hdec. cbv zeta. unfold temp_file in Hdec. urllib_unfold.
  rewrite (smb_gate _ _ Hsmb), Hk, Hf. repeat urllib_step.
  rewrite insert_insert_eq. change (String.append "" idata) with idata.
  rewrite Hdec. repeat urllib_step.
  rewrite !delete_insert_eq. repeat split.
Qed.

(** X14. Whatever happens, [_load_urllib] leaks neither a connection nor
    its descriptor, and touches no descriptor and no file but its own: the
    number of open connections is as before, the descriptor [mkstemp] gave
    is closed, every other descriptor and every file other than the
    temporary one is as before. *)
Theorem load_urllib_releases (ext : Externals) (filename : string) (kwargs : kwargs_t)
    (s : Loader) :
  let w' := os (snd (_load_urllib ext filename kwargs s)) in
  conns w' = conns (os s)
  /\ (forall k : Z,
        (before_first ":"%char filename = "smb" -> smb_importable ext = true) ->
        mkstemp_fd ext = Some k -> fdtab w' !! k = None)
  /\ (forall j : Z, mkstemp_fd ext <> Some j -> fdtab w' !! j = fdtab (os s) !! j)
  /\ (forall name : string,
        name <> temp_file ext filename -> files w' !! name = files (os s) !! name).
Proof.
  cbv zeta. urllib_unfold.
  destruct (String.eqb_spec (before_first ":"%char filename) "smb") as [Esmb|Esmb];
    destruct (smb_importable ext) eqn:Hsmb; simpl andb; cbv iota;
    try (refine (conj eq_refl (conj _ (conj _ _))); intros; auto;
         match goal with H : _ -> false = true |- _ => specialize (H Esmb); discriminate end);
    (destruct (mkstemp_fd ext) as [k|] eqn:Hk;
     [|repeat urllib_step; refine (conj eq_refl (conj _ (conj _ _))); intros; auto;
       discriminate]);
    (destruct (urlopen ext filename) as [| |idata]; repeat urllib_step;
     [destruct (_error_image s); repeat urllib_step;
        destruct (k =? 0)%Z; repeat urllib_step
     |destruct (_error_image s); repeat urllib_step;
        destruct (k =? 0)%Z; repeat urllib_step
     |destruct (ImageLoader_load ext _ _ _) as [[|i]|e']; repeat urllib_step]);
    (refine (conj eq_refl (conj _ (conj _ _)));
     [intros k' _ [= <-]; rewrite ?lookup_delete_eq; reflexivity
     |intros j Hj; assert (k <> j) by congruence;
        rewrite ?lookup_delete_ne, ?lookup_insert_ne by assumption; reflexivity
     |intros name Hname;
        rewrite ?lookup_delete_ne, ?lookup_insert_ne by (apply not_eq_sym; assumption);
        reflexivity]).
Qed.

(** X15. An smb URL on a machine without PySMB: [_load_urllib] returns
    [None] and touches nothing, so [_load] (without callbacks) appends
    [(filename, None)] to [_q_done] and calls the trigger; the invocation of
    [_update] that pops that entry raises an AttributeError and delivers
    nothing: the clients of the file stay bound and not loaded, and the
    cache keeps what it had for the file. *)
Theorem smb_without_pysmb (ext : Externals) (kwargs : LoadRequest) (s : Loader)
    (filename : string) (n : Z) :
  smb_importable ext = false ->
  before_first ":"%char filename = "smb" ->
  rq_filename kwargs = Some filename ->
  rq_load_callback kwargs = None ->
  rq_post_callback kwargs = None ->
  _max_upload_per_frame s = Some n ->
  (1 <= n)%Z ->
  (Z.of_nat (length (_q_done s)) < n * _num_workers s)%Z ->
  _paused s = false ->
  _load ext kwargs s
    = (Done (Ret tt), _trigger_update (set_q_done ((Some filename, DNone) :: _q_done s) s))
  /\ (_q_done s = [] ->
      let s2 := snd (_update (snd (_load ext kwargs s))) in
      fst (_update (snd (_load ext kwargs s))) = Raise AttributeError
      /\ _q_done s2 = []
      /\ _client s2 = _client s
      /\ heap s2 = heap s
      /\ cache s2 = cache s).
Proof.
  intros Hsmb Hproto Hf Hlc Hpc Hn H1 Hroom Hp.
  assert (Hload : _load ext kwargs s
    = (Done (Ret tt), _trigger_update (set_q_done ((Some filename, DNone) :: _q_done s) s))).
  { unfold _load, backpressure, _get_max_upload_per_frame.
    rewrite Hn, Hp, andb_false_r, Hf, Hlc, Hpc, Hproto.
    destruct (Z.leb_spec (n * _num_workers s) (Z.of_nat (length (_q_done s)))); [lia|].
    unfold _load_urllib. rewrite Hproto, Hsmb. reflexivity. }
  split; [exact Hload|]. intros Hq. cbv zeta. rewrite Hload. simpl snd.
  destruct (update_none_entry
              (_trigger_update (set_q_done ((Some filename, DNone) :: _q_done s) s))
              n [] (Some filename) Hp Hn H1)
    as (Ho & Hq' & Hc & Hh & Hca & _).
  - simpl. rewrite Hq. reflexivity.
  - simpl in *. auto.
Qed.

(** ** File names *)








(** ** The loading image *)


(** ** The further theorems at sample inputs *)

Lemma set_max_upload_per_frame_samples :
  _set_max_upload_per_frame (Some 0%Z) fresh_loader = (Raise Exception, fresh_loader)
  /\ _get_max_upload_per_frame (snd (_set_max_upload_per_frame None fresh_loader)) = None
  /\ _get_max_upload_per_frame (snd (_set_max_upload_per_frame (Some 10%Z) fresh_loader))
     = Some 10%Z.
Proof.
  refine (conj _ (conj _ _)).
  - refine (proj1 (set_max_upload_per_frame_spec fresh_loader (Some 0%Z)) 0%Z eq_refl _). lia.
  - exact (proj1 (proj2 (proj2 (set_max_upload_per_frame_spec fresh_loader None)
                           (or_introl eq_refl)))).
  - refine (proj1 (proj2 (proj2 (set_max_upload_per_frame_spec fresh_loader (Some 10%Z)) _))).
    right. exists 10%Z. split; [reflexivity|lia].
Defined.

Lemma update_delivers_first_loaded :
  _q_done first_loaded = [(Some "a.png", DImage (mkImage "a.png" false))]
  /\ _client first_loaded = [(Some "a.png", 0)]
  /\ _client (snd (_update first_loaded)) = []
  /\ heap (snd (_update first_loaded)) !! 0
     = Some (mkProxy (DImage (mkImage "a.png" false)) true 1).
Proof.
  refine (conj eq_refl (conj eq_refl _)).
  assert (Hnd : NoDup (_client first_loaded)) by apply NoDup_singleton.
  assert (H1 : (1 <= 2)%Z) by lia.
  destruct (update_delivers first_loaded 2 (Some "a.png") (mkImage "a.png" false)
              eq_refl eq_refl H1 eq_refl Hnd) as (_ & _ & Hc & Hb & _).
  split; [exact Hc|].
  refine (Hb 0 _). constructor.
Defined.

Lemma update_takes_oldest_backlog :
  _paused backlog = false
  /\ _q_done (snd (_update backlog)) = [(Some "c.png", DImage (mkImage "c.png" false))].
Proof.
  split; [reflexivity|].
  refine (proj1 (proj2 (update_takes_oldest backlog 2 eq_refl eq_refl _))).
  repeat constructor; discriminate.
Defined.

Lemma update_none_entry_lost_smb :
  _q_done smb_loaded = [(Some smb_url, DNone)]
  /\ fst (_update smb_loaded) = Raise AttributeError
  /\ _q_done (snd (_update smb_loaded)) = []
  /\ _client (snd (_update smb_loaded)) = [(Some smb_url, 0)].
Proof.
  split; [reflexivity|].
  assert (H1 : (1 <= 2)%Z) by lia.
  destruct (update_none_entry_lost smb_loaded 2 [] (Some smb_url) eq_refl eq_refl H1 eq_refl)
    as (Ho & Hq & Hc & _).
  refine (conj Ho (conj Hq _)). rewrite Hc. reflexivity.
Defined.

Lemma update_touches_only_clients_resolved :
  _client first_resolved = []
  /\ heap (snd (_update first_resolved)) !! 0 = heap first_resolved !! 0.
Proof.
  split; [reflexivity|].
  refine (proj1 (update_touches_only_clients first_resolved 0 _)).
  intros Hin. apply elem_of_nil in Hin. exact Hin.
Defined.



Lemma run_hands_over_sample :
  length (_q_load first_started) <= 1
  /\ run_loop 1 [] first_started = run first_started
  /\ _q_load (snd (run first_started)) = []
  /\ run fresh_loader = ([], fresh_loader).
Proof.
  assert (Hlen : length (_q_load first_started) <= 1) by (vm_compute; first [reflexivity | lia]).
  destruct (run_hands_over_in_order first_started 1 Hlen) as (He & Hr & _).
  refine (conj Hlen (conj He (conj (proj2 (Hr eq_refl)) _))).
  assert (Hlen0 : length (_q_load fresh_loader) <= 0) by (vm_compute; first [reflexivity | lia]).
  exact (proj2 (proj2 (run_hands_over_in_order fresh_loader 0 Hlen0)) eq_refl).
Defined.

Lemma resume_drains_backlog :
  _q_done (resume (snd (ticks 4 (pause backlog)))) = _q_done backlog
  /\ _q_done (snd (_update (resume (snd (ticks 4 (pause backlog))))))
     = [(Some "c.png", DImage (mkImage "c.png" false))].
Proof.
  assert (Hall : Forall is_image (_q_done backlog)) by (repeat constructor; discriminate).
  destruct (resume_drains backlog 2 4 eq_refl Hall) as (Hq & _ & Hq').
  split; [exact Hq|exact Hq'].
Defined.

Lemma update_needs_entry_other_done :
  _client other_done = [(Some "a.png", 0)]
  /\ (Some "a.png", 0) ∈ _client (snd (_update other_done))
  /\ heap (snd (_update other_done)) !! 0 = Some (mkProxy (DImage loading_gif) false 0).
Proof.
  split; [reflexivity|].
  assert (Hnd : NoDup (_client other_done).*2) by apply NoDup_singleton.
  assert (Hall : Forall (fun e : filename_t * PyData => fst e <> Some "a.png")
                   (_q_done other_done)) by (repeat constructor; discriminate).
  assert (Hin : (Some "a.png", 0) ∈ _client other_done) by constructor.
  destruct (update_needs_entry other_done (Some "a.png") 0 Hnd Hall Hin) as [Hk Hh].
  split; [exact Hk|]. rewrite Hh. reflexivity.
Defined.


Lemma load_waits_samples :
  _load ext_offline blank_request full_queue = (Sleeping, full_queue)
  /\ _load ext_offline blank_request (pause first_started)
     = (WaitingResume, pause first_started)
  /\ (exists o, fst (_load ext_offline blank_request (pause fresh_loader)) = Done o).
Proof.
  refine (conj _ (conj _ _)).
  - refine (proj1 (load_waits ext_offline blank_request full_queue 2 eq_refl) _).
    vm_compute. first [reflexivity | intros E; discriminate E | lia].
  - refine (proj1 (proj1 (proj2 (load_waits ext_offline blank_request (pause first_started)
                                   2 eq_refl)) _) eq_refl eq_refl).
    vm_compute. first [reflexivity | intros E; discriminate E | lia].
  - refine (proj2 (proj1 (proj2 (load_waits ext_offline blank_request (pause fresh_loader)
                                   2 eq_refl)) _) eq_refl).
    vm_compute. first [reflexivity | intros E; discriminate E | lia].
Defined.

Lemma load_urllib_success_sample :
  urlopen ext_online sample_url = Body "PNG!"
  /\ fst (_load_urllib ext_online sample_url ∅ fresh_loader)
     = Ret (DImage (mkImage sample_url false))
  /\ files (os (snd (_load_urllib ext_online sample_url ∅ fresh_loader)))
       !! "/tmp/kivyloaderab12.png" = None.
Proof.
  split; [reflexivity|].
  assert (Hsmb : before_first ":"%char sample_url = "smb" -> smb_importable ext_online = true)
    by (intros E; discriminate E).
  assert (Hdec : ImageLoader_load ext_online
                   (<[temp_file ext_online sample_url := "PNG!"]> (files (os fresh_loader)))
                   (temp_file ext_online sample_url) ∅
                 = Ret (DImage (mkImage (temp_file ext_online sample_url) false)))
    by (vm_compute; reflexivity).
  destruct (load_urllib_success ext_online sample_url ∅ fresh_loader 3 "PNG!"
              (mkImage (temp_file ext_online sample_url) false) Hsmb eq_refl eq_refl Hdec)
    as (Hr & Hf & _).
  split; [exact Hr|]. rewrite Hf. reflexivity.
Defined.

Lemma load_urllib_releases_sample :
  conns (os (snd (_load_urllib ext_offline sample_url ∅ fresh_loader))) = 0
  /\ fdtab (os (snd (_load_urllib ext_offline sample_url ∅ fresh_loader))) !! 3%Z = None
  /\ files (os (snd (_load_urllib ext_online sample_url ∅ (init ∅ [] disk)))) !! "a.png"
     = Some "PNG!".
Proof.
  refine (conj _ (conj _ _)).
  - exact (proj1 (load_urllib_releases ext_offline sample_url ∅ fresh_loader)).
  - refine (proj1 (proj2 (load_urllib_releases ext_offline sample_url ∅ fresh_loader))
              3%Z _ eq_refl).
    intros E. discriminate E.
  - rewrite (proj2 (proj2 (proj2 (load_urllib_releases ext_online sample_url ∅
                                    (init ∅ [] disk)))) "a.png").
    + reflexivity.
    + intros E. discriminate E.
Defined.

Lemma smb_without_pysmb_sample :
  _q_done (snd (_load ext_no_smb (mkRequest (Some smb_url) None None ∅)
                  (snd (_update smb_requested))))
    = [(Some smb_url, DNone)]
  /\ fst (_update (snd (_load ext_no_smb (mkRequest (Some smb_url) None None ∅)
                          (snd (_update smb_requested)))))
     = Raise AttributeError.
Proof.
  assert (H1 : (1 <= 2)%Z) by lia.
  assert (Hroom : (Z.of_nat (length (_q_done (snd (_update smb_requested))))
                   < 2 * _num_workers (snd (_update smb_requested)))%Z) by (vm_compute; first [reflexivity | lia]).
  destruct (smb_without_pysmb ext_no_smb (mkRequest (Some smb_url) None None ∅)
              (snd (_update smb_requested)) smb_url 2
              eq_refl eq_refl eq_refl eq_refl eq_refl eq_refl H1 Hroom eq_refl)
    as [Hload Hupd].
  split.
  - rewrite Hload. reflexivity.
  - exact (proj1 (Hupd eq_refl)).
Defined.


